(** * Product summary enrichment: a shallow embedding of
      [product_summary_api.py] and the properties of its pipeline.

    The Python program decodes a JSON array of product records, asks a
    text-generation service for a summary of every record, extracts the
    bullet lines of the answer, and, in folder mode, writes one enriched
    file per input file and returns a status map.

    Python strings are sequences of Unicode code points, and the bullet
    marker U+2022 is not ASCII, so a string is a list of code points here.
    Exceptions are values of [exn]; the Streamlit calls, the chat calls and
    the file system are threaded through an explicit [world]. *)

From Stdlib Require Import List NArith ZArith Bool Arith Lia.
From Stdlib Require String Ascii.
Import ListNotations String.StringSyntax.
Delimit Scope string_scope with string.

Set Warnings "-register-all".

Set Implicit Arguments.

(** ** Python strings *)

Definition char := N.
Definition str := list char.

Definition of_ascii (s : String.string) : str :=
  List.map Ascii.N_of_ascii (String.list_ascii_of_string s).
Arguments of_ascii s%_string.

Definition char_eqb (a b : char) : bool := N.eqb a b.

Fixpoint str_eqb (a b : str) : bool :=
  match a, b with
  | [], [] => true
  | x :: a', y :: b' => char_eqb x y && str_eqb a' b'
  | _, _ => false
  end.

(** [c in chars], for a one-character [c]. *)
Definition char_in (chars : str) (c : char) : bool :=
  existsb (char_eqb c) chars.

(** The characters [str.strip()] removes: those for which [str.isspace]
    holds (CPython's [_PyUnicode_IsWhitespace]). *)
Definition isspace (c : char) : bool :=
  ((9 <=? c) && (c <=? 13)
   || (28 <=? c) && (c <=? 32)
   || (c =? 133) || (c =? 160) || (c =? 5760)
   || (8192 <=? c) && (c <=? 8202)
   || (c =? 8232) || (c =? 8233) || (c =? 8239) || (c =? 8287)
   || (c =? 12288))%N.

Fixpoint lstrip_by (p : char -> bool) (s : str) : str :=
  match s with
  | [] => []
  | c :: rest => if p c then lstrip_by p rest else s
  end.

Definition rstrip_by (p : char -> bool) (s : str) : str :=
  rev (lstrip_by p (rev s)).

(** [s.strip()] *)
Definition strip (s : str) : str := rstrip_by isspace (lstrip_by isspace s).

(** [s.lstrip(chars)] *)
Definition lstrip (chars : str) (s : str) : str := lstrip_by (char_in chars) s.

(** [s.split(sep)] for a one-character separator: never the empty list. *)
Fixpoint split (sep : char) (s : str) : list str :=
  match s with
  | [] => [[]]
  | c :: rest =>
      if char_eqb c sep then [] :: split sep rest
      else match split sep rest with
           | [] => [[c]]
           | line :: lines => (c :: line) :: lines
           end
  end.

(** [sep.join(lines)] for a one-character separator. *)
Fixpoint join (sep : char) (lines : list str) : str :=
  match lines with
  | [] => []
  | [line] => line
  | line :: rest => line ++ sep :: join sep rest
  end.

Definition newline : char := 10%N.

(** The literal ['•-*']: U+2022, hyphen-minus, asterisk. *)
Definition bullet_markers : str := [8226; 45; 42]%N.

(** ** Exceptions *)

Inductive exn : Type :=
| JSONDecodeError (msg : str)
| ValueError (msg : str)
| KeyError (key : str)
| IndexError
| TypeError
| AttributeError
| OSError (msg : str)
| OtherError (msg : str).

Inductive result (A : Type) : Type :=
| Ok (a : A)
| Raise (e : exn).
Arguments Ok {A} a.
Arguments Raise {A} e.

Definition rbind {A B} (r : result A) (k : A -> result B) : result B :=
  match r with
  | Ok a => k a
  | Raise e => Raise e
  end.

(** ** Bullet extraction (lines 66-70 of the source)

    [[point.strip().lstrip('•-*').strip()
      for point in summary_text.split('\n')
      if point.strip() and point.strip()[0] in '•-*']] *)

Module Extract.

(** [s[0]] *)
Definition getitem0 (s : str) : result char :=
  match s with
  | [] => Raise IndexError
  | c :: _ => Ok c
  end.

(** Truth value of a string: non-empty. *)
Definition truthy (s : str) : bool :=
  match s with [] => false | _ => true end.

(** The comprehension's condition; [and] evaluates its right operand only
    when the left one is true. *)
Definition condition (point : str) : result bool :=
  if truthy (strip point)
  then rbind (getitem0 (strip point)) (fun c => Ok (char_in bullet_markers c))
  else Ok false.

(** The comprehension's element expression. *)
Definition clean (point : str) : str :=
  strip (lstrip bullet_markers (strip point)).

Fixpoint comprehension (points : list str) : result (list str) :=
  match points with
  | [] => Ok []
  | point :: rest =>
      rbind (condition point) (fun keep =>
      rbind (comprehension rest) (fun tail =>
      Ok (if keep then clean point :: tail else tail)))
  end.

Definition bullet_points (summary_text : str) : result (list str) :=
  comprehension (split newline summary_text).

End Extract.

(** ** JSON values, as [json.loads] builds them

    A Python [dict] keeps insertion order, and assigning to a key that is
    present keeps its place: an association list with update in place. *)

Inductive json : Type :=
| JNull
| JBool (b : bool)
| JInt (n : Z)
| JFloat (literal : str)
| JString (s : str)
| JArray (items : list json)
| JObject (fields : list (str * json)).

Section Assoc.
Variables (K V : Type) (eqb : K -> K -> bool).

(** [d.get(k)] *)
Fixpoint assoc_get (k : K) (d : list (K * V)) : option V :=
  match d with
  | [] => None
  | (k', v) :: rest => if eqb k' k then Some v else assoc_get k rest
  end.

(** [d[k] = v] *)
Fixpoint assoc_set (k : K) (v : V) (d : list (K * V)) : list (K * V) :=
  match d with
  | [] => [(k, v)]
  | (k', v') :: rest =>
      if eqb k' k then (k', v) :: rest else (k', v') :: assoc_set k v rest
  end.
End Assoc.

Definition dict_get {V} := @assoc_get str V str_eqb.
Definition dict_set {V} := @assoc_set str V str_eqb.

(** [isinstance(v, dict)] *)
Definition is_dict (v : json) : bool :=
  match v with JObject _ => true | _ => false end.

(** [v[key]] for a string key: only a mapping can be indexed by a string. *)
Definition getitem (v : json) (key : str) : result json :=
  match v with
  | JObject fields =>
      match dict_get key fields with
      | Some x => Ok x
      | None => Raise (KeyError key)
      end
  | _ => Raise TypeError
  end.

(** The receiver of [.split]: only a string has the method. *)
Definition expect_str (v : json) : result str :=
  match v with
  | JString s => Ok s
  | _ => Raise AttributeError
  end.

(** What [json.loads] does with a text: a value, a [JSONDecodeError] for a
    text that is not JSON, or another exception raised while a JSON text is
    read (a [ValueError] for an integer literal over the digit limit, a
    [RecursionError] for deep nesting). *)
Inductive decoded : Type :=
| Decoded (v : json)
| Malformed (msg : str)
| Refused (e : exn).

(** ** The world: Streamlit output, chat calls and the file system *)

Record path : Type := Path { parent : str; name : str }.

Definition path_eqb (p q : path) : bool :=
  str_eqb (parent p) (parent q) && str_eqb (name p) (name q).

Inductive fnode : Type :=
| TextFile (text : str)   (* read gives the text; write replaces it *)
| Undecodable             (* bytes that are not UTF-8: read raises *)
| Directory.              (* [open] raises, for reading and for writing *)

Inductive event : Type :=
| Progress (i total : nat)        (* st.progress(i / total, ...) *)
| StError (context : str) (e : exn)  (* st.error(context + str(e)) *)
| StWarning (msg : str)
| StWrite (msg : str)
| Chat (prompt : str).            (* one call of ollama.chat *)

Record world : Type := World {
  trace : list event;               (* oldest first *)
  files : list (path * fnode)
}.

Definition M (A : Type) : Type := world -> result A * world.

Definition ret {A} (a : A) : M A := fun w => (Ok a, w).
Definition raise {A} (e : exn) : M A := fun w => (Raise e, w).
Definition lift {A} (r : result A) : M A := fun w => (r, w).

Definition bind {A B} (c : M A) (k : A -> M B) : M B :=
  fun w =>
    match c w with
    | (Ok a, w') => k a w'
    | (Raise e, w') => (Raise e, w')
    end.

(** [try: body except Exception as e: handler e] *)
Definition try_except {A} (body : M A) (handler : exn -> M A) : M A :=
  fun w =>
    match body w with
    | (Ok a, w') => (Ok a, w')
    | (Raise e, w') => handler e w'
    end.

Notation "x <- c ;; k" := (bind c (fun x => k))
  (at level 61, c at next level, right associativity).
Notation "c ;;; k" := (bind c (fun _ => k))
  (at level 61, right associativity).

Definition emit (e : event) : M unit :=
  fun w => (Ok tt, World (trace w ++ [e]) (files w)).

Definition st_progress (i total : nat) : M unit := emit (Progress i total).
Definition st_error (context : str) (e : exn) : M unit := emit (StError context e).
Definition st_warning (msg : str) : M unit := emit (StWarning msg).
Definition st_write (msg : str) : M unit := emit (StWrite msg).

Definition fs_get := @assoc_get path fnode path_eqb.
Definition fs_set := @assoc_set path fnode path_eqb.

(** [with open(p, 'r', encoding='utf-8') as f: f.read()] *)
Definition read_text (p : path) : M str :=
  fun w =>
    match fs_get p (files w) with
    | Some (TextFile text) => (Ok text, w)
    | Some Undecodable => (Raise (ValueError (of_ascii "invalid utf-8")), w)
    | Some Directory => (Raise (OSError (of_ascii "Is a directory")), w)
    | None => (Raise (OSError (of_ascii "No such file or directory")), w)
    end.

(** [with open(p, 'w', encoding='utf-8') as f: f.write(text)] *)
Definition write_text (p : path) (text : str) : M unit :=
  fun w =>
    match fs_get p (files w) with
    | Some Directory => (Raise (OSError (of_ascii "Is a directory")), w)
    | _ => (Ok tt, World (trace w) (fs_set p (TextFile text) (files w)))
    end.

(** [s.endswith(suffix)] *)
Definition endswith (s suffix : str) : bool :=
  str_eqb (skipn (length s - length suffix) s) suffix.

(** [list(folder.glob("*.json"))]: the entries of the folder whose name
    ends in [.json], in directory order. *)
Definition json_files_in (folder : str) (fs : list (path * fnode)) : list path :=
  filter (fun p => str_eqb (parent p) folder
                   && endswith (name p) (of_ascii ".json"))
         (List.map fst fs).

Definition glob_json (folder : str) : M (list path) :=
  fun w => (Ok (json_files_in folder (files w)), w).

(** ** What the program calls but does not define

    [json.loads], [json.dumps], [ollama.chat] and [pathlib] are libraries,
    and the constant [SUMMARY_PROMPT] is defined outside the file: the
    program is embedded over any behaviour of these.  The chat service may
    answer differently on every call, so its answer depends on what has
    happened so far. *)

Record collaborators : Type := Collaborators {
  json_loads : str -> decoded;
  (* json.dumps(v, indent=n); json.dump writes the same text *)
  json_dumps : json -> option nat -> str;
  (* SUMMARY_PROMPT.format(product_info=info) *)
  SUMMARY_PROMPT_format : str -> result str;
  (* ollama.chat(model=..., messages=[system, user]), by the user content *)
  ollama_chat : list event -> str -> result json;
  (* str(p) for a pathlib.Path *)
  str_of_path : path -> str
}.

Definition ai_summary : str := of_ascii "ai_summary".
Definition error_marker : str := of_ascii "Error generating summary".

(** One entry of the [results] dict of [process_folder]; the error entry
    stores [str(e)]. *)
Inductive outcome : Type :=
| Success (output_path : str) (product_count : nat)
| Failure (error : exn).

Section Program.
Variable env : collaborators.

(** *** class ProductProcessor *)

Definition chat (prompt : str) : M json :=
  fun w => (ollama_chat env (trace w) prompt,
            World (trace w ++ [Chat prompt]) (files w)).

(** The [try] block of [_generate_product_summary] (lines 49-72). *)
Definition summary_body (product : json) : M (list str) :=
  let product_info := json_dumps env product (Some 2) in
  prompt <- lift (SUMMARY_PROMPT_format env product_info) ;;
  response <- chat prompt ;;
  message <- lift (getitem response (of_ascii "message")) ;;
  content <- lift (getitem message (of_ascii "content")) ;;
  summary_text <- lift (expect_str content) ;;
  bullet_points <- lift (Extract.bullet_points summary_text) ;;
  ret bullet_points.

Definition _generate_product_summary (product : json) : M (list str) :=
  try_except (summary_body product)
    (fun e =>
       st_error (of_ascii "Error generating summary for product: ") e ;;;
       ret [error_marker]).

(** The [for] loop of [process_json_document] (lines 26-35), at position
    [i] of [total]; the list is updated in place, element by element. *)
Fixpoint enrich (total i : nat) (products : list json) : M (list json) :=
  match products with
  | [] => ret []
  | product :: rest =>
      match product with
      | JObject fields =>
          st_progress i total ;;;
          summary <- _generate_product_summary product ;;
          rest' <- enrich total (S i) rest ;;
          ret (JObject (dict_set ai_summary
                          (JArray (List.map JString summary)) fields)
                 :: rest')
      | _ =>
          rest' <- enrich total (S i) rest ;;
          ret (product :: rest')
      end
  end.

(** The [try] block of [process_json_document] (lines 19-37). *)
Definition document_body (json_content : str) : M (list json) :=
  products <- lift (match json_loads env json_content with
                    | Decoded v => Ok v
                    | Malformed msg => Raise (JSONDecodeError msg)
                    | Refused e => Raise e
                    end) ;;
  match products with
  | JArray items => enrich (length items) 1 items
  | _ => raise (ValueError (of_ascii "JSON content must be a list of products"))
  end.

Definition process_json_document (json_content : str) : M (list json) :=
  try_except (document_body json_content)
    (fun e =>
       match e with
       | JSONDecodeError _ =>
           st_error (of_ascii "Invalid JSON format: ") e ;;; raise e
       | _ =>
           st_error (of_ascii "Error processing products: ") e ;;; raise e
       end).

(** *** class FolderProcessor *)

Definition processed_name (file_name : str) : str :=
  of_ascii "processed_" ++ file_name.

(** The inner [try] block of [process_folder] (lines 97-111). *)
Definition file_body (folder : str) (json_file : path)
           (results : list (str * outcome)) : M (list (str * outcome)) :=
  json_content <- read_text json_file ;;
  processed_products <- process_json_document json_content ;;
  let output_path := Path folder (processed_name (name json_file)) in
  write_text output_path (json_dumps env (JArray processed_products) (Some 2)) ;;;
  ret (dict_set (name json_file)
         (Success (str_of_path env output_path) (length processed_products))
         results).

(** The [for] loop of [process_folder] (lines 93-118). *)
Fixpoint folder_loop (folder : str) (json_files : list path)
         (results : list (str * outcome)) : M (list (str * outcome)) :=
  match json_files with
  | [] => ret results
  | json_file :: rest =>
      st_write (of_ascii "Processing " ++ name json_file ++ of_ascii "...") ;;;
      results' <- try_except (file_body folder json_file results)
                    (fun e =>
                       let results' :=
                         dict_set (name json_file) (Failure e) results in
                       st_error (of_ascii "Error processing "
                                 ++ name json_file ++ of_ascii ": ") e ;;;
                       ret results') ;;
      folder_loop folder rest results'
  end.

Definition process_folder (folder : str) : M (list (str * outcome)) :=
  try_except
    (json_files <- glob_json folder ;;
     match json_files with
     | [] =>
         st_warning (of_ascii "No JSON files found in " ++ folder) ;;;
         ret []
     | _ => folder_loop folder json_files []
     end)
    (fun e => st_error (of_ascii "Error processing folder: ") e ;;; raise e).

End Program.

(** ** The claims' vocabulary *)

(** A line that, once its leading whitespace is removed, starts with one of
    the markers. *)
Definition starts_with_marker (line : str) : bool :=
  match lstrip_by isspace line with
  | c :: _ => char_in bullet_markers c
  | [] => false
  end.

(** A string that neither starts nor ends with whitespace. *)
Definition trimmed (s : str) : Prop :=
  (forall c rest, s = c :: rest -> isspace c = false) /\
  (forall c front, s = front ++ [c] -> isspace c = false).

(** [bullet] is [line] without its surrounding whitespace and without all
    its leading markers: the line is whitespace, a non-empty run of markers
    that ends where the first other character stands, whitespace, the
    bullet, whitespace. *)
Definition stripped_of (line bullet : str) : Prop :=
  exists ws1 ms ws2 ws3,
    line = ws1 ++ ms ++ ws2 ++ bullet ++ ws3 /\
    forallb isspace ws1 = true /\
    ms <> [] /\ forallb (char_in bullet_markers) ms = true /\
    (forall c rest, ws2 ++ bullet ++ ws3 = c :: rest ->
                    char_in bullet_markers c = false) /\
    forallb isspace ws2 = true /\
    forallb isspace ws3 = true /\
    trimmed bullet.

(** A line of a text holds no line break. *)
Definition one_line (line : str) : Prop := ~ In newline line.

(** Whether the comprehension keeps a line: its condition, evaluated. *)
Definition keeps (point : str) : bool :=
  match strip point with
  | c :: _ => char_in bullet_markers c
  | [] => false
  end.

(** ** Sample data *)

Definition bullet_char : char := 8226%N.

(** Two bullet lines: a U+2022 line and a hyphen line. *)
Definition two_bullets : str :=
  bullet_char :: of_ascii " Durable" ++ newline :: of_ascii "- Affordable".

(** The same with a line of prose after them. *)
Definition bullets_and_prose : str :=
  two_bullets ++ newline :: of_ascii "Notes: ignore this".

(** [response['message']['content']], as the receiver of [.split]. *)
Definition response_text (response : json) : result str :=
  rbind (getitem response (of_ascii "message")) (fun message =>
  rbind (getitem message (of_ascii "content")) expect_str).

Definition summary_context : str :=
  of_ascii "Error generating summary for product: ".

(** What one call of [_generate_product_summary] may add to the trace: the
    chat call, unless the prompt could not be built, and the error report,
    if something failed. *)
Definition summary_trace (events : list event) : Prop :=
  (exists e, events = [StError summary_context e]) \/
  (exists prompt, events = [Chat prompt]) \/
  (exists prompt e, events = [Chat prompt; StError summary_context e]).

(** The element [y] returned for the element [x]: a mapping has received
    the key [ai_summary], bound to a list of strings, its other keys keep
    their values; anything else is returned as it is. *)
Definition adds_summary (x y : json) : Prop :=
  match x with
  | JObject fields =>
      exists fields' summary,
        y = JObject fields' /\
        dict_get ai_summary fields' = Some (JArray (List.map JString summary)) /\
        (forall key, key <> ai_summary ->
                     dict_get key fields' = dict_get key fields)
  | _ => y = x
  end.

(** The same when every summary is the error marker. *)
Definition adds_error_marker (x y : json) : Prop :=
  match x with
  | JObject fields =>
      exists fields',
        y = JObject fields' /\
        dict_get ai_summary fields' = Some (JArray [JString error_marker]) /\
        (forall key, key <> ai_summary ->
                     dict_get key fields' = dict_get key fields)
  | _ => y = x
  end.

(** The trace of the loop over the elements from position [i] on: nothing
    for an element that is not a mapping; for a mapping, the progress
    notification first, then the trace of its summary. *)
Inductive loop_trace (total : nat) : nat -> list json -> list event -> Prop :=
| loop_trace_nil i : loop_trace total i [] []
| loop_trace_skip i x rest events :
    is_dict x = false ->
    loop_trace total (S i) rest events ->
    loop_trace total i (x :: rest) events
| loop_trace_dict i fields rest summary_events events :
    summary_trace summary_events ->
    loop_trace total (S i) rest events ->
    loop_trace total i (JObject fields :: rest)
               (Progress i total :: summary_events ++ events).

(** The progress notifications of a trace, in order. *)
Fixpoint progress_events (events : list event) : list (nat * nat) :=
  match events with
  | [] => []
  | Progress i total :: rest => (i, total) :: progress_events rest
  | _ :: rest => progress_events rest
  end.

(** The positions, counted from [i], of the mappings of a list, each with
    the total. *)
Fixpoint dict_positions (total i : nat) (items : list json) : list (nat * nat) :=
  match items with
  | [] => []
  | JObject _ :: rest => (i, total) :: dict_positions total (S i) rest
  | _ :: rest => dict_positions total (S i) rest
  end.

(** A generation service that fails on every call. *)
Definition chat_always_fails (env : collaborators) : Prop :=
  forall history prompt, exists e, ollama_chat env history prompt = Raise e.

(** ** Sample collaborators

    A decoder that knows a few documents, a serializer without indentation
    or escapes, a service that always answers [bullets_and_prose], and one
    that is unreachable. *)

Definition quoted (s : str) : str := 34%N :: s ++ [34%N].

(** [[{"name":"Widget"}, 7]] *)
Definition widget_document : str :=
  of_ascii "[{" ++ quoted (of_ascii "name") ++ of_ascii ":"
  ++ quoted (of_ascii "Widget") ++ of_ascii "}, 7]".

Definition widget_items : list json :=
  [JObject [(of_ascii "name", JString (of_ascii "Widget"))]; JInt 7].

(** [{"a":1}] *)
Definition object_document : str :=
  of_ascii "{" ++ quoted (of_ascii "a") ++ of_ascii ":1}".

Definition sample_documents : list (str * json) :=
  [ (of_ascii "[]", JArray []);
    (of_ascii "[7]", JArray [JInt 7]);
    (widget_document, JArray widget_items);
    (object_document, JObject [(of_ascii "a", JInt 1)]) ].

Definition sample_loads (text : str) : decoded :=
  match dict_get text sample_documents with
  | Some v => Decoded v
  | None => Malformed (of_ascii "Expecting value")
  end.

Fixpoint sample_dumps (v : json) : str :=
  match v with
  | JNull => of_ascii "null"
  | JBool true => of_ascii "true"
  | JBool false => of_ascii "false"
  | JInt n => if (n <? 0)%Z then of_ascii "-" ++ [48 + Z.to_N (- n)]%N
              else [48 + Z.to_N n]%N
  | JFloat literal => literal
  | JString s => quoted s
  | JArray items =>
      of_ascii "["
      ++ (fix each (l : list json) : str :=
            match l with
            | [] => []
            | [x] => sample_dumps x
            | x :: rest => sample_dumps x ++ of_ascii ", " ++ each rest
            end) items
      ++ of_ascii "]"
  | JObject fields =>
      of_ascii "{"
      ++ (fix each (l : list (str * json)) : str :=
            match l with
            | [] => []
            | [(k, x)] => quoted k ++ of_ascii ": " ++ sample_dumps x
            | (k, x) :: rest =>
                quoted k ++ of_ascii ": " ++ sample_dumps x
                ++ of_ascii ", " ++ each rest
            end) fields
      ++ of_ascii "}"
  end.

Definition sample_answer : json :=
  JObject [(of_ascii "message",
            JObject [(of_ascii "role", JString (of_ascii "assistant"));
                     (of_ascii "content", JString bullets_and_prose)])].

Definition sample_env : collaborators :=
  {| json_loads := sample_loads;
     json_dumps := fun v _ => sample_dumps v;
     SUMMARY_PROMPT_format := fun info => Ok (of_ascii "Summarize: " ++ info);
     ollama_chat := fun _ _ => Ok sample_answer;
     str_of_path := fun p => parent p ++ of_ascii "/" ++ name p |}.


Definition empty_world : world := World [] [].

(** ** Folder mode: the claims' vocabulary *)

(** The sibling path that receives the enriched copy of a file. *)
Definition destination (folder : str) (json_file : path) : path :=
  Path folder (processed_name (name json_file)).

(** Whether processing a file fails, by the file system at that moment:
    the file cannot be read, or its text does not decode to a JSON array,
    or its destination cannot be opened for writing. *)
Definition file_fails (env : collaborators) (folder : str)
           (fs : list (path * fnode)) (json_file : path) : bool :=
  match fs_get json_file fs with
  | Some (TextFile text) =>
      match json_loads env text with
      | Decoded (JArray _) =>
          match fs_get (destination folder json_file) fs with
          | Some Directory => true
          | _ => false
          end
      | _ => true
      end
  | _ => true
  end.

Definition is_failure (o : outcome) : bool :=
  match o with Failure _ => true | Success _ _ => false end.

Definition is_success (o : outcome) : bool := negb (is_failure o).

Fixpoint count {A} (p : A -> bool) (l : list A) : nat :=
  match l with
  | [] => 0
  | x :: rest => (if p x then 1 else 0) + count p rest
  end.



(** The world in which the [try] block of a file starts: the loop has
    just announced the file. *)
Definition attempt_world (json_file : path) (w : world) : world :=
  World (trace w
         ++ [StWrite (of_ascii "Processing " ++ name json_file ++ of_ascii "...")])
        (files w).

(** The world the loop is in after one file. *)
Definition world_after (env : collaborators) (folder : str)
           (json_file : path) (w : world) : world :=
  snd (folder_loop env folder [json_file] [] w).

(** The files of a run, each with the world in which it is attempted. *)
Fixpoint attempts (env : collaborators) (folder : str)
         (json_files : list path) (w : world) : list (path * world) :=
  match json_files with
  | [] => []
  | json_file :: rest =>
      (json_file, attempt_world json_file w)
      :: attempts env folder rest (world_after env folder json_file w)
  end.


(** No discovered file is the destination of a discovered file: the run
    does not overwrite its own inputs. *)
Definition inputs_kept (folder : str) (json_files : list path) : Prop :=
  forall f g, In f json_files -> In g json_files -> g <> destination folder f.

(** What the entry [o] of an attempt says, [final] being the file system
    at the end of the run. *)
Definition recorded (env : collaborators) (folder : str)
           (final : list (path * fnode)) (a : path * world * outcome) : Prop :=
  let json_file := fst (fst a) in
  let w0 := snd (fst a) in
  match snd a with
  | Failure _ => file_fails env folder (files w0) json_file = true
  | Success output_path product_count =>
      file_fails env folder (files w0) json_file = false /\
      output_path = str_of_path env (destination folder json_file) /\
      exists content items processed_products,
        fs_get json_file (files w0) = Some (TextFile content) /\
        json_loads env content = Decoded (JArray items) /\
        fst (process_json_document env content w0) = Ok processed_products /\
        Forall2 adds_summary items processed_products /\
        product_count = length items /\
        fs_get (destination folder json_file) final =
        Some (TextFile (json_dumps env (JArray processed_products) (Some 2)))
  end.

(** The entry of the [results] dict for an attempt. *)
Definition entry (a : path * world * outcome) : str * outcome :=
  (name (fst (fst a)), snd a).

(** A folder with two well-formed documents, a malformed one, and a file
    that is not a JSON file. *)
Definition data : str := of_ascii "data".

Definition sample_files : list (path * fnode) :=
  [ (Path data (of_ascii "a.json"), TextFile widget_document);
    (Path data (of_ascii "broken.json"), TextFile (of_ascii "{not json"));
    (Path data (of_ascii "notes.txt"), TextFile (of_ascii "[7]"));
    (Path data (of_ascii "c.json"), TextFile (of_ascii "[7]")) ].

Definition sample_world : world := World [] sample_files.

(** ** Further vocabulary: bullet extraction *)

(** [f"• {point}"], the line the preview prints for a bullet (line 159). *)
Definition display_point (point : str) : str :=
  bullet_char :: 32%N :: point.

(** [line'] is [line] with whitespace added before and after it, and is
    still a single line. *)
Definition padded (line line' : str) : Prop :=
  exists ws1 ws2,
    line' = ws1 ++ line ++ ws2 /\
    forallb isspace ws1 = true /\
    forallb isspace ws2 = true /\
    one_line line'.

(** ** Further vocabulary: one document *)

(** The prompts of the chat calls of a trace, in order. *)
Fixpoint chat_prompts (events : list event) : list str :=
  match events with
  | [] => []
  | Chat prompt :: rest => prompt :: chat_prompts rest
  | _ :: rest => chat_prompts rest
  end.

(** The user content built for a record (lines 49 and 60). *)
Definition prompt_of (env : collaborators) (product : json) : result str :=
  SUMMARY_PROMPT_format env (json_dumps env product (Some 2)).

(** The prompts of the mappings of a list for which a prompt can be
    built, in order. *)
Fixpoint expected_prompts (env : collaborators) (items : list json) : list str :=
  match items with
  | [] => []
  | JObject fields :: rest =>
      match prompt_of env (JObject fields) with
      | Ok prompt => prompt :: expected_prompts env rest
      | Raise _ => expected_prompts env rest
      end
  | _ :: rest => expected_prompts env rest
  end.

(** [key in d] *)
Definition has_key {V} (key : str) (d : list (str * V)) : bool :=
  existsb (str_eqb key) (List.map fst d).

(** The keys of a mapping once it has been given its summary: as they
    were when [ai_summary] was among them, with [ai_summary] added last
    otherwise. *)
Definition keys_with_summary (fields : list (str * json)) : list str :=
  if has_key ai_summary fields then List.map fst fields
  else List.map fst fields ++ [ai_summary].

Definition summary_in_place (x y : json) : Prop :=
  match x with
  | JObject fields =>
      exists fields',
        y = JObject fields' /\ List.map fst fields' = keys_with_summary fields
  | _ => y = x
  end.

Definition same_keys (x y : json) : Prop :=
  match x with
  | JObject fields =>
      exists fields', y = JObject fields' /\ List.map fst fields' = List.map fst fields
  | _ => y = x
  end.

(** The element returned for [x], exactly. *)
Definition summary_set (x y : json) : Prop :=
  match x with
  | JObject fields =>
      exists summary,
        y = JObject (dict_set ai_summary (JArray (List.map JString summary)) fields)
  | _ => y = x
  end.

(** The events [process_json_document] can emit: no [st.write], no
    [st.warning]. *)
Definition from_document (e : event) : bool :=
  match e with
  | StWrite _ | StWarning _ => false
  | _ => true
  end.

(** ** Further vocabulary: folder mode *)

(** The text of line 94 and the context of line 118. *)
Definition announcement (json_file : path) : str :=
  of_ascii "Processing " ++ name json_file ++ of_ascii "...".

Definition folder_context (json_file : path) : str :=
  of_ascii "Error processing " ++ name json_file ++ of_ascii ": ".

(** The texts of the [st.write] calls of a trace, in order. *)
Fixpoint announcements (events : list event) : list str :=
  match events with
  | [] => []
  | StWrite msg :: rest => msg :: announcements rest
  | _ :: rest => announcements rest
  end.

(** The texts of the [st.warning] calls of a trace, in order. *)
Fixpoint warnings (events : list event) : list str :=
  match events with
  | [] => []
  | StWarning msg :: rest => msg :: warnings rest
  | _ :: rest => warnings rest
  end.

(** The events of one turn of the folder loop, for a file and its
    outcome: the announcement, the events of the document, and for a
    failure the error report that names the file, last. *)
Definition file_block (a : path * outcome) (events : list event) : Prop :=
  exists inner,
    Forall (fun e => from_document e = true) inner /\
    events =
    StWrite (announcement (fst a))
    :: inner
    ++ match snd a with
       | Failure e => [StError (folder_context (fst a)) e]
       | Success _ _ => []
       end.

(** The [results] dict after the assignments of a run. *)
Definition assign_all (results : list (str * outcome))
           (turns : list (path * outcome)) : list (str * outcome) :=
  fold_left (fun r a => dict_set (name (fst a)) (snd a) r) turns results.

(** ** class RAGApplication: single-document mode

    [process_json_file] calls Streamlit functions that the rest of the
    program does not use.  Its timeline holds them beside the events of the
    trace, in the order of the calls. *)

Inductive shown : Type :=
| Logged (e : event)   (* a call that is also in the trace *)
| DownloadButton (label data file_name mime : str)
| StSuccess (msg : str)
| StSubheader (msg : str)
| StJson (v : json)
| StMarkdown (body : str)
| StInfo (msg : str).

Record session : Type := Session {
  backend : world;
  timeline : list shown     (* oldest first *)
}.

Definition UI (A : Type) : Type := session -> result A * session.

Definition uret {A} (a : A) : UI A := fun s => (Ok a, s).
Definition uraise {A} (e : exn) : UI A := fun s => (Raise e, s).
Definition ulift {A} (r : result A) : UI A := fun s => (r, s).

Definition ubind {A B} (c : UI A) (k : A -> UI B) : UI B :=
  fun s =>
    match c s with
    | (Ok a, s') => k a s'
    | (Raise e, s') => (Raise e, s')
    end.

Definition utry {A} (body : UI A) (handler : exn -> UI A) : UI A :=
  fun s =>
    match body s with
    | (Ok a, s') => (Ok a, s')
    | (Raise e, s') => handler e s'
    end.

Notation "x <~ c ;; k" := (ubind c (fun x => k))
  (at level 61, c at next level, right associativity).
Notation "c ~;; k" := (ubind c (fun _ => k))
  (at level 61, right associativity).

(** A computation of the program, run in the session: the events it adds
    to the trace are added to the timeline. *)
Definition run {A} (c : M A) : UI A :=
  fun s =>
    let (r, w') := c (backend s) in
    (r, Session w'
          (timeline s
           ++ List.map Logged (skipn (length (trace (backend s))) (trace w')))).

Definition show (x : shown) : UI unit :=
  fun s => (Ok tt, Session (backend s) (timeline s ++ [x])).

(** [str(n)] for a natural number. *)
Fixpoint digits (u : Decimal.uint) : str :=
  match u with
  | Decimal.Nil => []
  | Decimal.D0 u => 48%N :: digits u
  | Decimal.D1 u => 49%N :: digits u
  | Decimal.D2 u => 50%N :: digits u
  | Decimal.D3 u => 51%N :: digits u
  | Decimal.D4 u => 52%N :: digits u
  | Decimal.D5 u => 53%N :: digits u
  | Decimal.D6 u => 54%N :: digits u
  | Decimal.D7 u => 55%N :: digits u
  | Decimal.D8 u => 56%N :: digits u
  | Decimal.D9 u => 57%N :: digits u
  end.

Definition str_of_nat (n : nat) : str := digits (Nat.to_uint n).

(** [for point in v]: a list gives its elements, a string its characters,
    a mapping its keys; nothing else can be iterated. *)
Definition iterate (v : json) : result (list json) :=
  match v with
  | JArray items => Ok items
  | JString s => Ok (List.map (fun c => JString [c]) s)
  | JObject fields => Ok (List.map (fun kv => JString (fst kv)) fields)
  | _ => Raise TypeError
  end.

(** What the caller passes: text, or the bytes of an uploaded file. *)
Inductive content : Type :=
| Text (s : str)
| Bytes (b : list Byte.byte).

Section SingleDocument.
Variable env : collaborators.
(* b.decode('utf-8') *)
Variable decode_utf8 : list Byte.byte -> result str.
(* str(v) for a value that is not a string *)
Variable py_str : json -> str.

(** [f"{point}"] *)
Definition format_point (point : json) : str :=
  match point with
  | JString s => s
  | _ => py_str point
  end.

(** Lines 158-159. *)
Fixpoint write_points (points : list json) : UI unit :=
  match points with
  | [] => uret tt
  | point :: rest =>
      run (st_write (display_point (format_point point))) ~;;
      write_points rest
  end.

(** The preview loop (lines 153-162) from position [idx], [total] being
    [len(processed_products)]. *)
Fixpoint preview (total idx : nat) (products : list json) : UI unit :=
  match products with
  | [] => uret tt
  | product :: rest =>
      run (st_write (newline :: of_ascii "Product " ++ str_of_nat idx
                     ++ of_ascii ":")) ~;;
      show (StJson product) ~;;
      run (st_write (of_ascii "AI Summary:")) ~;;
      summary <~ ulift (getitem product ai_summary) ;;
      points <~ ulift (iterate summary) ;;
      write_points points ~;;
      (if idx <? total then show (StMarkdown (of_ascii "---")) else uret tt) ~;;
      preview total (S idx) rest
  end.

(** The [try] block of [process_json_file] (lines 134-165). *)
Definition json_file_body (json_content : content) : UI unit :=
  text <~ match json_content with
          | Bytes b => ulift (decode_utf8 b)
          | Text s => uret s
          end ;;
  processed_products <~ run (process_json_document env text) ;;
  let processed_json := json_dumps env (JArray processed_products) (Some 2) in
  show (DownloadButton (of_ascii "Download Processed JSON") processed_json
          (of_ascii "processed_products.json")
          (of_ascii "application/json")) ~;;
  show (StSuccess (of_ascii "Products processed successfully!")) ~;;
  show (StSubheader (of_ascii "Sample Results")) ~;;
  preview (length processed_products) 1 (firstn 3 processed_products) ~;;
  if 3 <? length processed_products
  then show (StInfo (str_of_nat (length processed_products - 3)
                     ++ of_ascii " more products processed. Download the JSON file to see all results."))
  else uret tt.

Definition process_json_file (json_content : content) : UI unit :=
  utry (json_file_body json_content)
    (fun e =>
       run (st_error (of_ascii "Error processing JSON file: ") e) ~;;
       uraise e).

End SingleDocument.

(** ** Further vocabulary: single-document mode *)




Definition is_download (x : shown) : bool :=
  match x with DownloadButton _ _ _ _ => true | _ => false end.

Definition is_widget (x : shown) : bool :=
  match x with Logged _ => false | _ => true end.

Definition success_banner : shown :=
  StSuccess (of_ascii "Products processed successfully!").

Definition file_context : str := of_ascii "Error processing JSON file: ".

(** A sample decoder of uploaded bytes: ASCII bytes only. *)
Definition ascii_decode (b : list Byte.byte) : result str :=
  if forallb (fun x => (Byte.to_N x <? 128)%N) b
  then Ok (List.map Byte.to_N b)
  else Raise (ValueError (of_ascii "invalid start byte")).

Definition empty_session : session := Session empty_world [].

(** An element whose [ai_summary], if it is a mapping, is a list. *)
Definition summary_listed (y : json) : Prop :=
  match y with
  | JObject fields => exists l, dict_get ai_summary fields = Some (JArray l)
  | _ => True
  end.

(** The widgets of the preview of a list of mappings: each one displayed,
    with a rule after it unless it is the last product of the document. *)
Fixpoint preview_widgets (total idx : nat) (products : list json) : list shown :=
  match products with
  | [] => []
  | product :: rest =>
      StJson product
      :: (if idx <? total then [StMarkdown (of_ascii "---")] else [])
      ++ preview_widgets total (S idx) rest
  end.

(** What the preview loop puts on the timeline. *)
Definition in_preview (x : shown) : bool :=
  match x with
  | Logged _ | StJson _ | StMarkdown _ => true
  | _ => false
  end.



Definition download_button (env : collaborators) (out : list json) : shown :=
  DownloadButton (of_ascii "Download Processed JSON")
                 (json_dumps env (JArray out) (Some 2))
                 (of_ascii "processed_products.json")
                 (of_ascii "application/json").

Definition more_products (n : nat) : shown :=
  StInfo (str_of_nat (n - 3)
          ++ of_ascii " more products processed. Download the JSON file to see all results.").

(** ** Further vocabulary: what is reported when a document is refused *)

(** The heading under which [process_json_document] reports an exception
    (lines 39-44). *)
Definition report_context (e : exn) : str :=
  match e with
  | JSONDecodeError _ => of_ascii "Invalid JSON format: "
  | _ => of_ascii "Error processing products: "
  end.

Definition not_a_list : exn :=
  ValueError (of_ascii "JSON content must be a list of products").

(** ['[' + '1' * 4301 + ']']: an array that holds one integer literal of
    4301 digits. *)
Definition long_integer_document : str :=
  91%N :: repeat 49%N 4301 ++ [93%N].

Definition digit_limit : exn :=
  ValueError (of_ascii "Exceeds the limit (4300 digits) for integer string conversion: value has 4301 digits; use sys.set_int_max_str_digits() to increase the limit").

(** A decoder that refuses that document as CPython does from 3.11 on,
    and is the sample decoder elsewhere. *)
Definition limited_env : collaborators :=
  {| json_loads := fun text =>
       if str_eqb text long_integer_document then Refused digit_limit
       else sample_loads text;
     json_dumps := json_dumps sample_env;
     SUMMARY_PROMPT_format := SUMMARY_PROMPT_format sample_env;
     ollama_chat := ollama_chat sample_env;
     str_of_path := str_of_path sample_env |}.


(** ** A serializer that honours [indent]

    The layout of [json.dumps(v, indent=n)]: an empty list or mapping is
    written closed; otherwise every item starts a line of its own, [n]
    spaces deeper than the line that opens its container, items are
    separated by a comma, and a key by a colon and a space.  Without
    [indent] everything is on one line, items separated by a comma and a
    space.  Strings are written between quotes, without escapes. *)

Definition int_text (n : Z) : str :=
  if (n <? 0)%Z then of_ascii "-" ++ str_of_nat (Z.to_nat (- n))
  else str_of_nat (Z.to_nat n).

Definition line_break (indent : option nat) (level : nat) : str :=
  match indent with
  | Some n => newline :: repeat 32%N (n * level)
  | None => []
  end.

Definition item_separator (indent : option nat) (level : nat) : str :=
  match indent with
  | Some _ => of_ascii "," ++ line_break indent level
  | None => of_ascii ", "
  end.

Fixpoint layout (indent : option nat) (level : nat) (v : json) : str :=
  match v with
  | JNull => of_ascii "null"
  | JBool true => of_ascii "true"
  | JBool false => of_ascii "false"
  | JInt n => int_text n
  | JFloat literal => literal
  | JString s => quoted s
  | JArray items =>
      match items with
      | [] => of_ascii "[]"
      | _ =>
          of_ascii "[" ++ line_break indent (S level)
          ++ (fix each (l : list json) : str :=
                match l with
                | [] => []
                | [x] => layout indent (S level) x
                | x :: rest =>
                    layout indent (S level) x
                    ++ item_separator indent (S level) ++ each rest
                end) items
          ++ line_break indent level ++ of_ascii "]"
      end
  | JObject fields =>
      match fields with
      | [] => of_ascii "{}"
      | _ =>
          of_ascii "{" ++ line_break indent (S level)
          ++ (fix each (l : list (str * json)) : str :=
                match l with
                | [] => []
                | [(k, x)] =>
                    quoted k ++ of_ascii ": " ++ layout indent (S level) x
                | (k, x) :: rest =>
                    quoted k ++ of_ascii ": " ++ layout indent (S level) x
                    ++ item_separator indent (S level) ++ each rest
                end) fields
          ++ line_break indent level ++ of_ascii "}"
      end
  end.

Definition layout_dumps (v : json) (indent : option nat) : str :=
  layout indent 0 v.

(** The sample collaborators, with that serializer. *)
Definition layout_env : collaborators :=
  {| json_loads := json_loads sample_env;
     json_dumps := layout_dumps;
     SUMMARY_PROMPT_format := SUMMARY_PROMPT_format sample_env;
     ollama_chat := ollama_chat sample_env;
     str_of_path := str_of_path sample_env |}.

(** The enriched copy of [widget_document], as [json.dump(..., indent=2)]
    writes it. *)
Definition widget_output : str :=
  join newline
    [ of_ascii "[";
      of_ascii "  {";
      of_ascii "    " ++ quoted (of_ascii "name") ++ of_ascii ": "
        ++ quoted (of_ascii "Widget") ++ of_ascii ",";
      of_ascii "    " ++ quoted ai_summary ++ of_ascii ": [";
      of_ascii "      " ++ quoted (of_ascii "Durable") ++ of_ascii ",";
      of_ascii "      " ++ quoted (of_ascii "Affordable");
      of_ascii "    ]";
      of_ascii "  },";
      of_ascii "  7";
      of_ascii "]" ].
(** * Properties *)

Unset Implicit Arguments.

(** ** Strings *)

Lemma char_eqb_eq (a b : char) : char_eqb a b = true <-> a = b.
Proof. apply N.eqb_eq. Qed.

Lemma str_eqb_eq (a b : str) : str_eqb a b = true <-> a = b.
Proof.
  revert b; induction a as [|x a IH]; intros [|y b]; simpl;
    try (split; [discriminate | discriminate]); try tauto.
  rewrite andb_true_iff, char_eqb_eq, IH.
  split; [intros [-> ->]; reflexivity | intros E; inversion E; auto].
Qed.

Lemma marker_not_space (c : char) :
  char_in bullet_markers c = true -> isspace c = false.
Proof.
  unfold char_in, bullet_markers; simpl.
  rewrite !orb_true_iff, !char_eqb_eq.
  intros [->|[->|[->|F]]]; try reflexivity; discriminate.
Qed.

Lemma space_not_marker (c : char) :
  isspace c = true -> char_in bullet_markers c = false.
Proof.
  intros S; destruct (char_in bullet_markers c) eqn:E; [|reflexivity].
  apply marker_not_space in E; congruence.
Qed.

Section Strip.
Variable p : char -> bool.

Lemma lstrip_by_split (s : str) :
  exists pre, s = pre ++ lstrip_by p s /\ forallb p pre = true.
Proof.
  induction s as [|c s [pre [E F]]]; simpl.
  - exists []; auto.
  - destruct (p c) eqn:P.
    + exists (c :: pre); simpl; rewrite P, F; split; [congruence|reflexivity].
    + exists []; auto.
Qed.

Lemma lstrip_by_head (s : str) c rest :
  lstrip_by p s = c :: rest -> p c = false.
Proof.
  induction s as [|x s IH]; simpl; [discriminate|].
  destruct (p x) eqn:P; [exact IH|].
  intros E; inversion E; subst; exact P.
Qed.

Lemma lstrip_by_all (s : str) : forallb p s = true -> lstrip_by p s = [].
Proof.
  induction s as [|c s IH]; simpl; [reflexivity|].
  rewrite andb_true_iff; intros [-> F]; auto.
Qed.

Lemma rstrip_by_split (s : str) :
  exists post, s = rstrip_by p s ++ post /\ forallb p post = true.
Proof.
  unfold rstrip_by.
  destruct (lstrip_by_split (rev s)) as [pre [E F]].
  exists (rev pre); split.
  - rewrite <- rev_app_distr, <- E, rev_involutive; reflexivity.
  - rewrite forallb_forall in *; intros x H; apply F, in_rev, H.
Qed.

Lemma rstrip_by_last (s : str) c front :
  rstrip_by p s = front ++ [c] -> p c = false.
Proof.
  unfold rstrip_by; intros E.
  apply (f_equal (@rev char)) in E.
  rewrite rev_involutive, rev_app_distr in E; simpl in E.
  eapply lstrip_by_head; exact E.
Qed.

End Strip.

Lemma rstrip_by_keeps_head p (c : char) (rest : str) :
  p c = false -> exists rest', rstrip_by p (c :: rest) = c :: rest'.
Proof.
  intros P.
  destruct (rstrip_by_split p (c :: rest)) as [post [E F]].
  destruct (rstrip_by p (c :: rest)) as [|x rest'] eqn:R; simpl in E.
  - subst post; simpl in F; rewrite P in F; discriminate.
  - inversion E; subst; eauto.
Qed.

Lemma strip_trimmed (s : str) : trimmed (strip s).
Proof.
  unfold strip; split.
  - intros c rest E.
    destruct (lstrip_by isspace s) as [|x t] eqn:L; [discriminate|].
    pose proof (lstrip_by_head _ _ _ _ L) as X.
    destruct (rstrip_by_keeps_head _ _ t X) as [rest' R].
    rewrite R in E; inversion E; subst; exact X.
  - intros c front E; eapply rstrip_by_last; exact E.
Qed.

Lemma strip_split (s : str) :
  exists ws1 ws2, s = ws1 ++ strip s ++ ws2 /\
                  forallb isspace ws1 = true /\ forallb isspace ws2 = true.
Proof.
  destruct (lstrip_by_split isspace s) as [ws1 [E1 F1]].
  destruct (rstrip_by_split isspace (lstrip_by isspace s)) as [ws2 [E2 F2]].
  exists ws1, ws2; unfold strip; rewrite <- E2; auto.
Qed.

Lemma keeps_starts_with_marker (point : str) :
  keeps point = starts_with_marker point.
Proof.
  unfold keeps, starts_with_marker, strip.
  destruct (lstrip_by isspace point) as [|c t] eqn:L; [reflexivity|].
  destruct (rstrip_by_keeps_head _ _ t (lstrip_by_head _ _ _ _ L)) as [rest' ->].
  reflexivity.
Qed.

(** ** Bullet extraction *)

Lemma condition_ok (point : str) : Extract.condition point = Ok (keeps point).
Proof.
  unfold Extract.condition, keeps.
  destruct (strip point); reflexivity.
Qed.

Lemma comprehension_ok (points : list str) :
  Extract.comprehension points = Ok (List.map Extract.clean (filter keeps points)).
Proof.
  induction points as [|point rest IH]; simpl; [reflexivity|].
  rewrite condition_ok, IH; simpl.
  destruct (keeps point); reflexivity.
Qed.

Lemma bullet_points_ok (text : str) :
  Extract.bullet_points text =
  Ok (List.map Extract.clean (filter keeps (split newline text))).
Proof. apply comprehension_ok. Qed.

Lemma forallb_app_true {A} (f : A -> bool) (l1 l2 : list A) :
  forallb f l1 = true -> forallb f l2 = true -> forallb f (l1 ++ l2) = true.
Proof. intros H1 H2; rewrite forallb_app, H1, H2; reflexivity. Qed.

Lemma clean_stripped_of (line : str) :
  keeps line = true -> stripped_of line (Extract.clean line).
Proof.
  unfold keeps, Extract.clean, lstrip; intros Hk.
  destruct (strip_split line) as [ws1 [wsE [E [F1 FE]]]].
  destruct (lstrip_by_split (char_in bullet_markers) (strip line)) as [ms [Em Fm]].
  set (rest := lstrip_by (char_in bullet_markers) (strip line)) in *.
  destruct (strip_split rest) as [ws2 [ws3 [Er [F2 F3]]]].
  exists ws1, ms, ws2, (ws3 ++ wsE); repeat split.
  - rewrite E at 1; rewrite Em at 1; rewrite Er at 1.
    rewrite <- !app_assoc; reflexivity.
  - exact F1.
  - intros ->; simpl in Em.
    destruct (strip line) as [|c t] eqn:S; [discriminate|].
    symmetry in Em; unfold rest in Em.
    apply lstrip_by_head in Em; congruence.
  - exact Fm.
  - intros c r Ec.
    rewrite !app_assoc in Ec; rewrite <- (app_assoc ws2) in Ec; rewrite <- Er in Ec.
    destruct rest as [|x rest'] eqn:R.
    + simpl in Ec; apply space_not_marker.
      rewrite forallb_forall in FE; apply FE; rewrite Ec; left; reflexivity.
    + simpl in Ec; inversion Ec; subst x.
      eapply lstrip_by_head; exact R.
  - exact F2.
  - apply forallb_app_true; assumption.
  - apply strip_trimmed.
  - apply strip_trimmed.
Qed.

Lemma split_one_line (line : str) :
  one_line line -> split newline line = [line].
Proof.
  unfold one_line; induction line as [|c line IH]; simpl; [reflexivity|].
  intros N; destruct (char_eqb c newline) eqn:E.
  - apply char_eqb_eq in E; subst; tauto.
  - rewrite IH; [reflexivity | tauto].
Qed.

Lemma split_app_newline (line rest : str) :
  one_line line ->
  split newline (line ++ newline :: rest) = line :: split newline rest.
Proof.
  unfold one_line; induction line as [|c line IH]; simpl; intros N.
  - reflexivity.
  - destruct (char_eqb c newline) eqn:E.
    + apply char_eqb_eq in E; subst; tauto.
    + rewrite IH; [reflexivity | tauto].
Qed.

Lemma split_join (lines : list str) :
  lines <> [] -> Forall one_line lines ->
  split newline (join newline lines) = lines.
Proof.
  induction lines as [|line rest IH]; [congruence|].
  intros _ F; inversion F as [|? ? H1 Hr]; subst.
  destruct rest as [|l2 rest].
  - simpl; apply split_one_line; exact H1.
  - change (join newline (line :: l2 :: rest))
      with (line ++ newline :: join newline (l2 :: rest)).
    rewrite split_app_newline, IH; auto; discriminate.
Qed.

Lemma filter_keeps_split_join (lines : list str) :
  Forall one_line lines ->
  filter keeps (split newline (join newline lines)) = filter keeps lines.
Proof.
  intros F; destruct lines as [|l lines]; [reflexivity|].
  rewrite split_join; auto; discriminate.
Qed.

Lemma clean_empty_iff (line : str) :
  Extract.clean line = [] <->
  forallb (char_in bullet_markers) (strip line) = true.
Proof.
  unfold Extract.clean, lstrip; split.
  - intros E.
    destruct (lstrip_by_split (char_in bullet_markers) (strip line)) as [ms [Em Fm]].
    destruct (strip_split (lstrip_by (char_in bullet_markers) (strip line)))
      as [ws2 [ws3 [Er [F2 F3]]]].
    rewrite E in Er; simpl in Er.
    assert (Fr : forallb isspace
                   (lstrip_by (char_in bullet_markers) (strip line)) = true)
      by (rewrite Er; apply forallb_app_true; assumption).
    destruct (lstrip_by (char_in bullet_markers) (strip line)) as [|x rest] eqn:R.
    + rewrite Em, app_nil_r; exact Fm.
    + exfalso.
      destruct (exists_last (l := x :: rest)) as [front [c Ec]]; [discriminate|].
      rewrite Ec in Fr, Em.
      rewrite forallb_app in Fr; simpl in Fr.
      apply andb_true_iff in Fr; destruct Fr as [_ Fc].
      rewrite andb_true_r in Fc.
      destruct (strip_trimmed line) as [_ T].
      rewrite app_assoc in Em; specialize (T _ _ Em); congruence.
  - intros F; rewrite lstrip_by_all; auto.
Qed.

(** A marker that follows whitespace is not a leading one: it stays. *)
Example nested_marker_is_kept :
  Extract.bullet_points (of_ascii "- * x") = Ok [of_ascii "* x"] /\
  Extract.bullet_points (of_ascii "  --*  x  ") = Ok [of_ascii "x"].
Proof. split; reflexivity. Qed.

(** C4. When every line of the generated text starts, after trimming, with
    one of the markers, the extraction returns one bullet per line, in line
    order, each being its line without the surrounding whitespace and
    without all its leading markers; and a line that does not start with a
    marker contributes nothing, wherever it stands: removing it from the
    text leaves the result unchanged. *)
Theorem marker_lines_become_bullets :
  (forall text : str,
     forallb starts_with_marker (split newline text) = true ->
     exists bullets,
       Extract.bullet_points text = Ok bullets /\
       length bullets = length (split newline text) /\
       Forall2 stripped_of (split newline text) bullets) /\
  (forall (before after : list str) (line : str),
     Forall one_line (before ++ line :: after) ->
     starts_with_marker line = false ->
     Extract.bullet_points (join newline (before ++ line :: after)) =
     Extract.bullet_points (join newline (before ++ after))).
Proof.
  split.
  - intros text H.
    rewrite bullet_points_ok.
    assert (K : forall points,
               forallb starts_with_marker points = true ->
               filter keeps points = points /\
               Forall2 stripped_of points (List.map Extract.clean points)).
    { induction points as [|point rest IH]; simpl; [auto|].
      rewrite andb_true_iff; intros [Hp Hr].
      destruct (IH Hr) as [E F].
      rewrite keeps_starts_with_marker, Hp, E; split; [reflexivity|].
      constructor; [|exact F].
      apply clean_stripped_of; rewrite keeps_starts_with_marker; exact Hp. }
    destruct (K _ H) as [E F]; rewrite E.
    eexists; split; [reflexivity|]; split; [apply length_map | exact F].
  - intros before after line F Hl.
    rewrite !bullet_points_ok.
    rewrite !filter_keeps_split_join; auto.
    + rewrite !filter_app; simpl.
      rewrite keeps_starts_with_marker, Hl; reflexivity.
    + apply Forall_app in F; destruct F as [Fb Fa].
      apply Forall_app; split; [exact Fb | inversion Fa; assumption].
Qed.

Lemma marker_lines_become_bullets_witness :
  (exists bullets,
     Extract.bullet_points two_bullets = Ok bullets /\
     length bullets = 2 /\
     Forall2 stripped_of (split newline two_bullets) bullets) /\
  Extract.bullet_points bullets_and_prose = Extract.bullet_points two_bullets.
Proof.
  split.
  - apply (proj1 marker_lines_become_bullets two_bullets); reflexivity.
  - apply (proj2 marker_lines_become_bullets
             [bullet_char :: of_ascii " Durable"; of_ascii "- Affordable"]
             [] (of_ascii "Notes: ignore this")).
    + repeat constructor; unfold one_line; simpl; intuition discriminate.
    + reflexivity.
Defined.

(** C5. The extraction never raises: every text yields a list; the empty
    text and every text without a marker line yield the empty list. *)
Theorem bullet_points_total :
  (forall text : str, exists bullets, Extract.bullet_points text = Ok bullets) /\
  Extract.bullet_points [] = Ok [] /\
  (forall text : str,
     existsb starts_with_marker (split newline text) = false ->
     Extract.bullet_points text = Ok []).
Proof.
  split; [|split].
  - intros text; rewrite bullet_points_ok; eauto.
  - reflexivity.
  - intros text H; rewrite bullet_points_ok.
    replace (filter keeps (split newline text)) with (@nil str); [reflexivity|].
    symmetry; induction (split newline text) as [|l ls IH]; simpl in *; [reflexivity|].
    apply orb_false_iff in H; destruct H as [Hl Hr].
    rewrite keeps_starts_with_marker, Hl; auto.
Qed.

Lemma bullet_points_total_witness :
  Extract.bullet_points (of_ascii "Notes: ignore this") = Ok [].
Proof.
  apply (proj2 (proj2 bullet_points_total)); reflexivity.
Defined.

(** C6, as stated, fails: the text made of three hyphens, a Markdown rule,
    yields one bullet, the empty string. *)
Lemma empty_bullet_counterexample :
  ~ (forall (text : str) (bullets : list str),
       Extract.bullet_points text = Ok bullets ->
       Forall (fun bullet => bullet <> []) bullets).
Proof.
  intros H.
  specialize (H (of_ascii "---") [[]] eq_refl).
  inversion H as [|? ? Hne _]; apply Hne; reflexivity.
Qed.

(** C6, amended. The bullets are, in order, those of the lines that start
    with a marker; each bullet has no surrounding whitespace, and it is the
    empty string exactly when its line, once trimmed, is made of marker
    characters only. *)
Theorem bullets_empty_only_for_marker_runs (text : str) :
  exists bullets,
    Extract.bullet_points text = Ok bullets /\
    Forall2 (fun line bullet =>
               trimmed bullet /\
               (bullet = [] <->
                forallb (char_in bullet_markers) (strip line) = true))
            (filter starts_with_marker (split newline text)) bullets.
Proof.
  rewrite bullet_points_ok; eexists; split; [reflexivity|].
  induction (split newline text) as [|l ls IH]; simpl; [constructor|].
  rewrite keeps_starts_with_marker.
  destruct (starts_with_marker l); simpl; [|exact IH].
  constructor; [|exact IH].
  split; [apply strip_trimmed | apply clean_empty_iff].
Qed.

(** ** Dictionaries *)

Section AssocFacts.
Variables (K V : Type) (eqb : K -> K -> bool).
Hypothesis eqb_eq : forall a b, eqb a b = true <-> a = b.

Lemma assoc_get_set_same (k : K) (v : V) (d : list (K * V)) :
  assoc_get eqb k (assoc_set eqb k v d) = Some v.
Proof.
  induction d as [|[k' v'] d IH]; simpl.
  - rewrite (proj2 (eqb_eq k k) eq_refl); reflexivity.
  - destruct (eqb k' k) eqn:E; simpl; rewrite E; auto.
Qed.

Lemma assoc_get_set_other (k k2 : K) (v : V) (d : list (K * V)) :
  k2 <> k -> assoc_get eqb k2 (assoc_set eqb k v d) = assoc_get eqb k2 d.
Proof.
  intros N; induction d as [|[k' v'] d IH]; simpl.
  - destruct (eqb k k2) eqn:E; [|reflexivity].
    apply eqb_eq in E; congruence.
  - destruct (eqb k' k) eqn:E; simpl.
    + apply eqb_eq in E; subst k'.
      destruct (eqb k k2) eqn:E2; [|reflexivity].
      apply eqb_eq in E2; congruence.
    + rewrite IH; reflexivity.
Qed.

Lemma assoc_set_last_absent (k : K) (v : V) (d : list (K * V)) :
  ~ In k (List.map fst d) -> assoc_set eqb k v d = d ++ [(k, v)].
Proof.
  induction d as [|[k' v'] d IH]; simpl; intros N; [reflexivity|].
  destruct (eqb k' k) eqn:E.
  - apply eqb_eq in E; subst; tauto.
  - rewrite IH; tauto.
Qed.

End AssocFacts.

Lemma path_eqb_eq (p q : path) : path_eqb p q = true <-> p = q.
Proof.
  destruct p as [a b], q as [c d]; unfold path_eqb; simpl.
  rewrite andb_true_iff, !str_eqb_eq.
  split; [intros [-> ->]; reflexivity | intros E; inversion E; auto].
Qed.

Lemma dict_get_set_same {V} (k : str) (v : V) d :
  dict_get k (dict_set k v d) = Some v.
Proof. apply assoc_get_set_same, str_eqb_eq. Qed.

Lemma dict_get_set_other {V} (k k2 : str) (v : V) d :
  k2 <> k -> dict_get k2 (dict_set k v d) = dict_get k2 d.
Proof. apply assoc_get_set_other, str_eqb_eq. Qed.

(** ** One summary *)

Section ProgramFacts.
Variable env : collaborators.

Lemma summary_body_run (product : json) (w : world) :
  summary_body env product w =
  match SUMMARY_PROMPT_format env (json_dumps env product (Some 2)) with
  | Raise e => (Raise e, w)
  | Ok prompt =>
      (rbind (ollama_chat env (trace w) prompt) (fun response =>
       rbind (response_text response) Extract.bullet_points),
       World (trace w ++ [Chat prompt]) (files w))
  end.
Proof.
  unfold summary_body, bind, lift, chat, ret, response_text.
  destruct (SUMMARY_PROMPT_format env _) as [prompt|e]; [|reflexivity].
  destruct (ollama_chat env (trace w) prompt) as [response|e]; [|reflexivity].
  simpl.
  destruct (getitem response _) as [message|e]; [|reflexivity]; simpl.
  destruct (getitem message _) as [content|e]; [|reflexivity]; simpl.
  destruct (expect_str content) as [text|e]; [|reflexivity]; simpl.
  destruct (Extract.bullet_points text); reflexivity.
Qed.

Lemma summary_run (product : json) (w : world) :
  exists bullets events,
    _generate_product_summary env product w =
    (Ok bullets, World (trace w ++ events) (files w)) /\
    summary_trace events /\
    (forall e w1, summary_body env product w = (Raise e, w1) ->
                  bullets = [error_marker]).
Proof.
  unfold _generate_product_summary, try_except.
  rewrite summary_body_run.
  destruct (SUMMARY_PROMPT_format env _) as [prompt|e].
  - destruct (rbind _ _) as [bullets|e]; simpl.
    + exists bullets, [Chat prompt]; repeat split.
      * right; left; eauto.
      * discriminate.
    + exists [error_marker], [Chat prompt; StError summary_context e].
      unfold bind, st_error, emit, ret; simpl.
      rewrite <- app_assoc; repeat split.
      right; right; eauto.
  - exists [error_marker], [StError summary_context e]; repeat split.
    left; eauto.
Qed.

Lemma summary_body_raises (product : json) (w : world) :
  chat_always_fails env -> exists e w1, summary_body env product w = (Raise e, w1).
Proof.
  intros F; rewrite summary_body_run.
  destruct (SUMMARY_PROMPT_format env _) as [prompt|e]; [|eauto].
  destruct (F (trace w) prompt) as [e ->]; simpl; eauto.
Qed.

Lemma adds_summary_set (fields : list (str * json)) (summary : list str) :
  adds_summary (JObject fields)
    (JObject (dict_set ai_summary (JArray (List.map JString summary)) fields)).
Proof.
  simpl; eexists _, summary; split; [reflexivity|]; split.
  - apply dict_get_set_same.
  - intros key N; apply dict_get_set_other; exact N.
Qed.

Lemma adds_error_marker_set (fields : list (str * json)) :
  adds_error_marker (JObject fields)
    (JObject (dict_set ai_summary
                (JArray (List.map JString [error_marker])) fields)).
Proof.
  simpl; eexists; split; [reflexivity|]; split.
  - apply dict_get_set_same.
  - intros key N; apply dict_get_set_other; exact N.
Qed.

(** ** The loop over the elements *)

Lemma enrich_run (total : nat) (items : list json) :
  forall (i : nat) (w : world),
  exists out events,
    enrich env total i items w =
    (Ok out, World (trace w ++ events) (files w)) /\
    Forall2 adds_summary items out /\
    loop_trace total i items events /\
    (chat_always_fails env -> Forall2 adds_error_marker items out).
Proof.
  induction items as [|x rest IH]; intros i w.
  - exists [], []; simpl; unfold ret; rewrite app_nil_r.
    destruct w; repeat split; constructor.
  - assert (Skip : is_dict x = false ->
             enrich env total i (x :: rest) w =
             (rest' <- enrich env total (S i) rest ;; ret (x :: rest')) w)
      by (destruct x; simpl; intros; (reflexivity || discriminate)).
    destruct x as [| | | | |l|fields];
      try (rewrite Skip by reflexivity;
           destruct (IH (S i) w) as [out [events [E [F [T A]]]]];
           unfold bind, ret; rewrite E;
           eexists _, events; split; [reflexivity|];
           split; [constructor; [reflexivity | exact F]|];
           split; [constructor; [reflexivity | exact T]|];
           intros C; constructor; [reflexivity | exact (A C)]).
    simpl enrich; unfold bind at 1; unfold st_progress, emit at 1.
    set (w1 := World (trace w ++ [Progress i total]) (files w)).
    destruct (summary_run (JObject fields) w1)
      as [bullets [sevents [Es [Ts Fs]]]].
    unfold bind at 1; rewrite Es.
    set (w2 := World (trace w1 ++ sevents) (files w1)).
    destruct (IH (S i) w2) as [out [events [E [F [T A]]]]].
    unfold bind, ret; rewrite E.
    eexists _, (Progress i total :: sevents ++ events); split; [|split; [|split]].
    + subst w2 w1; simpl; rewrite <- !app_assoc; reflexivity.
    + constructor; [apply adds_summary_set | exact F].
    + constructor; assumption.
    + intros C; constructor; [|exact (A C)].
      destruct (summary_body_raises (JObject fields) w1 C) as [e [w' R]].
      rewrite (Fs _ _ R); apply adds_error_marker_set.
Qed.

Lemma loop_trace_progress (total : nat) (items : list json) :
  forall i events,
    loop_trace total i items events ->
    progress_events events = dict_positions total i items.
Proof.
  intros i events T; induction T as [i|i x rest events D T IH|i fields rest sev events S T IH].
  - reflexivity.
  - destruct x; simpl in *; try exact IH; discriminate.
  - simpl; f_equal.
    assert (P : forall l, progress_events (sev ++ l) = progress_events l).
    { intros l; destruct S as [[e ->]|[[p ->]|[p [e ->]]]]; reflexivity. }
    rewrite P; exact IH.
Qed.

(** ** The whole document *)

Lemma document_run (json_content : str) (w : world) :
  process_json_document env json_content w =
  match json_loads env json_content with
  | Malformed msg =>
      (Raise (JSONDecodeError msg),
       World (trace w ++ [StError (of_ascii "Invalid JSON format: ")
                            (JSONDecodeError msg)]) (files w))
  | Decoded (JArray items) => enrich env (length items) 1 items w
  | Decoded _ =>
      let e := ValueError (of_ascii "JSON content must be a list of products") in
      (Raise e,
       World (trace w ++ [StError (of_ascii "Error processing products: ") e])
             (files w))
  | Refused e =>
      (Raise e, World (trace w ++ [StError (report_context e) e]) (files w))
  end.
Proof.
  unfold process_json_document, try_except, document_body, bind, lift.
  destruct (json_loads env json_content) as [v|msg|e];
    [|reflexivity|destruct e; reflexivity].
  destruct v; try reflexivity.
  destruct (enrich_run (length items) items 1 w) as [out [events [E _]]].
  rewrite E; reflexivity.
Qed.

End ProgramFacts.

Example sample_run :
  fst (process_json_document sample_env widget_document empty_world) =
  Ok [JObject [(of_ascii "name", JString (of_ascii "Widget"));
               (ai_summary, JArray [JString (of_ascii "Durable");
                                    JString (of_ascii "Affordable")])];
      JInt 7].
Proof. vm_compute. reflexivity. Qed.

(** C1. When the text decodes to a JSON array, [process_json_document]
    returns a list of the same length whose element at each position is the
    input element at that position: unchanged when it is not a mapping,
    and with the key [ai_summary] bound to a list of strings, its other
    keys untouched, when it is one. *)
Theorem document_keeps_length_and_order
        (env : collaborators) (text : str) (items : list json) (w : world) :
  json_loads env text = Decoded (JArray items) ->
  exists out w',
    process_json_document env text w = (Ok out, w') /\
    length out = length items /\
    Forall2 adds_summary items out.
Proof.
  intros D; rewrite document_run, D.
  destruct (enrich_run env (length items) items 1 w) as [out [events [E [F _]]]].
  exists out; eexists; split; [exact E|]; split; [|exact F].
  symmetry; eapply Forall2_length; exact F.
Qed.

Lemma document_keeps_length_and_order_witness :
  exists out w',
    process_json_document sample_env widget_document empty_world = (Ok out, w') /\
    length out = 2 /\
    Forall2 adds_summary widget_items out.
Proof.
  apply (document_keeps_length_and_order sample_env widget_document
           widget_items empty_world).
  reflexivity.
Defined.



(** C3, as stated, fails.  There is a third raising condition: on the
    array that holds one integer literal of 4301 digits, [json.loads]
    raises a [ValueError] that is not a decode error; the function reports
    it under the heading of line 43 and raises it again, although the text
    is JSON and its top-level value is an array. *)
Lemma digit_limit_counterexample :
  ~ (forall env text w e w',
       process_json_document env text w = (Raise e, w') ->
       (exists msg,
           json_loads env text = Malformed msg /\ e = JSONDecodeError msg) \/
       (exists v,
           json_loads env text = Decoded v /\
           (forall items, v <> JArray items) /\ e = not_a_list)) /\
  process_json_document limited_env long_integer_document empty_world =
  (Raise digit_limit,
   World [StError (of_ascii "Error processing products: ") digit_limit] []).
Proof.
  assert (R : process_json_document limited_env long_integer_document empty_world =
              (Raise digit_limit,
               World [StError (of_ascii "Error processing products: ") digit_limit] []))
    by (vm_compute; reflexivity).
  split; [|exact R].
  intros H; destruct (H _ _ _ _ _ R) as [[msg [D _]]|[v [D _]]];
    vm_compute in D; discriminate.
Qed.

(** C3, amended.  [process_json_document] raises exactly when
    [json.loads] raises or the decoded value is not an array, and each time
    it reports the exception once and raises it again: a text that is not
    JSON raises the decode error, reported as invalid JSON; any other
    exception of [json.loads] is raised as it is, reported under the
    heading of its class; a text that decodes to anything but an array
    raises the [ValueError] of line 23.  A text that decodes to an array
    returns, whatever its elements and whatever the service does. *)
Theorem document_raises_before_the_loop_only
        (env : collaborators) (text : str) (w : world) :
  match json_loads env text with
  | Malformed msg =>
      process_json_document env text w =
      (Raise (JSONDecodeError msg),
       World (trace w ++ [StError (of_ascii "Invalid JSON format: ")
                            (JSONDecodeError msg)]) (files w))
  | Refused e =>
      process_json_document env text w =
      (Raise e, World (trace w ++ [StError (report_context e) e]) (files w))
  | Decoded (JArray items) =>
      exists out w', process_json_document env text w = (Ok out, w')
  | Decoded _ =>
      process_json_document env text w =
      (Raise not_a_list,
       World (trace w ++ [StError (of_ascii "Error processing products: ")
                            not_a_list])
             (files w))
  end.
Proof.
  rewrite document_run.
  destruct (json_loads env text) as [v|msg|e]; [|reflexivity|reflexivity].
  destruct v; try reflexivity.
  destruct (enrich_run env (length items) items 1 w) as [out [events [E _]]].
  eauto.
Qed.

(** C7, as stated, fails.  For the document [[7]], whose only element is
    not a mapping, no progress notification is emitted; and for the widget
    document the notification of the first element comes before the chat
    call that produces its summary, not after it. *)
Lemma progress_counterexample :
  ~ (forall env text items w,
       json_loads env text = Decoded (JArray items) ->
       progress_events (trace (snd (process_json_document env text w))) =
       progress_events (trace w)
       ++ List.map (fun i => (i, length items)) (seq 1 (length items))) /\
  exists prompt,
    trace (snd (process_json_document sample_env widget_document empty_world)) =
    [Progress 1 2; Chat prompt].
Proof.
  split.
  - intros H.
    specialize (H sample_env (of_ascii "[7]") [JInt 7] empty_world eq_refl).
    vm_compute in H; discriminate.
  - eexists; vm_compute; reflexivity.
Qed.

(** C7, amended.  While a document that decodes to an array is processed,
    one progress notification, carrying the 1-based position and the
    total, is emitted for each element that is a mapping, in position
    order, and none for the other elements; the notification of a mapping
    is emitted first, before the chat call and the error report of its
    summary. *)
Theorem progress_precedes_each_mapping
        (env : collaborators) (text : str) (items : list json) (w : world) :
  json_loads env text = Decoded (JArray items) ->
  exists out events,
    process_json_document env text w =
    (Ok out, World (trace w ++ events) (files w)) /\
    loop_trace (length items) 1 items events /\
    progress_events events = dict_positions (length items) 1 items.
Proof.
  intros D; rewrite document_run, D.
  destruct (enrich_run env (length items) items 1 w) as [out [events [E [_ [T _]]]]].
  exists out, events; split; [exact E|]; split; [exact T|].
  eapply loop_trace_progress; exact T.
Qed.

Lemma progress_precedes_each_mapping_witness :
  exists out events,
    process_json_document sample_env widget_document empty_world =
    (Ok out, World (trace empty_world ++ events) (files empty_world)) /\
    loop_trace 2 1 widget_items events /\
    progress_events events = [(1, 2)].
Proof.
  apply (progress_precedes_each_mapping sample_env widget_document
           widget_items empty_world).
  reflexivity.
Defined.

(** ** Folder mode *)

Lemma fs_get_set_same (p : path) (node : fnode) fs :
  fs_get p (fs_set p node fs) = Some node.
Proof. apply assoc_get_set_same, path_eqb_eq. Qed.

Lemma fs_get_set_other (p q : path) (node : fnode) fs :
  q <> p -> fs_get q (fs_set p node fs) = fs_get q fs.
Proof. apply assoc_get_set_other, path_eqb_eq. Qed.

Lemma world_eta (w : world) : World (trace w) (files w) = w.
Proof. destruct w; reflexivity. Qed.

Section FolderFacts.
Variable env : collaborators.
Variable folder : str.

Lemma file_body_eq (json_file : path) (results : list (str * outcome)) (w0 : world) :
  file_body env folder json_file results w0 =
  match read_text json_file w0 with
  | (Raise e, w1) => (Raise e, w1)
  | (Ok json_content, w1) =>
      match process_json_document env json_content w1 with
      | (Raise e, w2) => (Raise e, w2)
      | (Ok processed_products, w2) =>
          match write_text (destination folder json_file)
                  (json_dumps env (JArray processed_products) (Some 2)) w2 with
          | (Raise e, w3) => (Raise e, w3)
          | (Ok _, w3) =>
              (Ok (dict_set (name json_file)
                     (Success (str_of_path env (destination folder json_file))
                              (length processed_products))
                     results), w3)
          end
      end
  end.
Proof.
  unfold file_body, bind, ret, destination.
  destruct (read_text json_file w0) as [[content|e] w1]; [|reflexivity].
  destruct (process_json_document env content w1) as [[out|e] w2]; [|reflexivity].
  destruct (write_text _ _ w2) as [[u|e] w3]; reflexivity.
Qed.

Lemma file_body_run (json_file : path) (w0 : world) :
  (file_fails env folder (files w0) json_file = true /\
   exists e events,
     forall results,
       file_body env folder json_file results w0 =
       (Raise e, World (trace w0 ++ events) (files w0)))
  \/
  (file_fails env folder (files w0) json_file = false /\
   exists content items processed_products events,
     fs_get json_file (files w0) = Some (TextFile content) /\
     json_loads env content = Decoded (JArray items) /\
     fst (process_json_document env content w0) = Ok processed_products /\
     Forall2 adds_summary items processed_products /\
     forall results,
       file_body env folder json_file results w0 =
       (Ok (dict_set (name json_file)
              (Success (str_of_path env (destination folder json_file))
                       (length items))
              results),
        World (trace w0 ++ events)
              (fs_set (destination folder json_file)
                 (TextFile (json_dumps env (JArray processed_products) (Some 2)))
                 (files w0)))).
Proof.
  unfold file_fails.
  destruct (fs_get json_file (files w0)) as [[content| |]|] eqn:G;
    try (left; split; [reflexivity|];
         eexists _, []; intros results;
         rewrite file_body_eq; unfold read_text; rewrite G;
         rewrite app_nil_r, world_eta; reflexivity).
  destruct (json_loads env content) as [v|msg|e] eqn:D;
    [|left; split; [reflexivity|]; eexists _, [_]; intros results;
      rewrite file_body_eq; unfold read_text; rewrite G;
      rewrite document_run, D; reflexivity
     |left; split; [reflexivity|]; eexists _, [_]; intros results;
      rewrite file_body_eq; unfold read_text; rewrite G;
      rewrite document_run, D; reflexivity].
  destruct v as [| | | | |items|];
    try (left; split; [reflexivity|]; eexists _, [_]; intros results;
         rewrite file_body_eq; unfold read_text; rewrite G;
         rewrite document_run, D; reflexivity).
  destruct (enrich_run env (length items) items 1 w0) as [out [events [E [F _]]]].
  destruct (fs_get (destination folder json_file) (files w0))
    as [[text| |]|] eqn:W;
    [ | | left; split; [reflexivity|]; eexists _, events; intros results;
          rewrite file_body_eq; unfold read_text; rewrite G;
          rewrite document_run, D, E; unfold write_text; simpl; rewrite W;
          reflexivity | ].
  all: right; split; [reflexivity|].
  all: exists content, items, out, events.
  all: split; [reflexivity|]; split; [exact D|].
  all: split; [rewrite document_run, D, E; reflexivity|]; split; [exact F|].
  all: intros results; rewrite file_body_eq; unfold read_text; rewrite G.
  all: rewrite document_run, D, E; unfold write_text; simpl; rewrite W.
  all: rewrite (Forall2_length F); reflexivity.
Qed.

Lemma folder_step (json_file : path) (w : world) :
  exists o w1,
    (forall results rest,
        folder_loop env folder (json_file :: rest) results w =
        folder_loop env folder rest (dict_set (name json_file) o results) w1) /\
    world_after env folder json_file w = w1 /\
    (forall p, p <> destination folder json_file ->
               fs_get p (files w1) = fs_get p (files w)) /\
    (forall final,
        fs_get (destination folder json_file) final =
        fs_get (destination folder json_file) (files w1) ->
        recorded env folder final (json_file, attempt_world json_file w, o)).
Proof.
  destruct (file_body_run json_file (attempt_world json_file w))
    as [[Ff [e [events B]]]
       |[Ff [content [items [out [events [G [D [P [F B]]]]]]]]]].
  - exists (Failure e); eexists; split; [|split; [|split]].
    + intros results rest; simpl folder_loop.
      unfold bind at 1, st_write, emit.
      unfold bind at 1, try_except.
      fold (attempt_world json_file w); rewrite B.
      unfold bind, st_error, emit, ret; simpl. reflexivity.
    + unfold world_after; simpl folder_loop.
      unfold bind at 1, st_write, emit.
      unfold bind at 1, try_except.
      fold (attempt_world json_file w); rewrite B.
      unfold bind, st_error, emit, ret; simpl. reflexivity.
    + intros p _; reflexivity.
    + intros final _; exact Ff.
  - exists (Success (str_of_path env (destination folder json_file)) (length items)).
    eexists; split; [|split; [|split]].
    + intros results rest; simpl folder_loop.
      unfold bind at 1, st_write, emit.
      unfold bind at 1, try_except.
      fold (attempt_world json_file w); rewrite B. reflexivity.
    + unfold world_after; simpl folder_loop.
      unfold bind at 1, st_write, emit.
      unfold bind at 1, try_except.
      fold (attempt_world json_file w); rewrite B. reflexivity.
    + intros p N; simpl; apply fs_get_set_other; exact N.
    + intros final A; unfold recorded; simpl fst; simpl snd.
      split; [exact Ff|]; split; [reflexivity|].
      exists content, items, out; repeat split; try assumption.
      rewrite A; simpl; apply fs_get_set_same.
Qed.

Lemma destination_inj (f g : path) :
  destination folder f = destination folder g -> name f = name g.
Proof.
  unfold destination, processed_name; intros E.
  injection E as H; exact H.
Qed.

Lemma folder_loop_run (json_files : list path) :
  forall results w,
    NoDup (List.map name json_files) ->
    (forall f, In f json_files -> ~ In (name f) (List.map fst results)) ->
    exists log w',
      folder_loop env folder json_files results w =
      (Ok (results ++ List.map entry log), w') /\
      List.map fst log = attempts env folder json_files w /\
      Forall (recorded env folder (files w')) log /\
      (forall p, (forall f, In f json_files -> p <> destination folder f) ->
                 fs_get p (files w') = fs_get p (files w)).
Proof.
  induction json_files as [|f rest IH]; intros results w ND Fresh.
  - exists [], w; simpl; rewrite app_nil_r; repeat split; constructor.
  - destruct (folder_step f w) as [o [w1 [Step [After [Keep Rec]]]]].
    simpl in ND; apply NoDup_cons_iff in ND; destruct ND as [Nf NDr].
    assert (Set_ : dict_set (name f) o results = results ++ [(name f, o)]).
    { apply assoc_set_last_absent; [apply str_eqb_eq|].
      apply Fresh; left; reflexivity. }
    destruct (IH (results ++ [(name f, o)]) w1 NDr) as [log [w' [E [A [R P]]]]].
    { intros g Hg; rewrite map_app, in_app_iff; simpl.
      intros [H|[H|[]]].
      - exact (Fresh g (or_intror Hg) H).
      - apply Nf; rewrite H; apply in_map; exact Hg. }
    assert (Dest : forall g, In g rest ->
                             destination folder f <> destination folder g).
    { intros g Hg D; apply destination_inj in D.
      apply Nf; rewrite D; apply in_map; exact Hg. }
    exists ((f, attempt_world f w, o) :: log), w'; split; [|split; [|split]].
    + rewrite Step, Set_, E; simpl; rewrite <- app_assoc; reflexivity.
    + simpl; rewrite After, A; reflexivity.
    + constructor; [|exact R].
      apply Rec, P; exact Dest.
    + intros p Hp; rewrite P, Keep; auto.
      * apply Hp; left; reflexivity.
      * intros g Hg; apply Hp; right; exact Hg.
Qed.

Lemma NoDup_map_on {A B} (f : A -> B) (l : list A) :
  NoDup l ->
  (forall x y, In x l -> In y l -> f x = f y -> x = y) ->
  NoDup (List.map f l).
Proof.
  induction 1 as [|x l Nx ND IH]; simpl; intros Inj; [constructor|].
  constructor.
  - intros H; apply in_map_iff in H; destruct H as [y [E Hy]].
    apply Nx; rewrite <- (Inj y x); auto.
  - apply IH; intros; apply Inj; auto.
Qed.

Lemma json_files_names_nodup (fs : list (path * fnode)) :
  NoDup (List.map fst fs) ->
  NoDup (List.map name (json_files_in folder fs)).
Proof.
  intros ND; unfold json_files_in.
  apply NoDup_map_on; [apply NoDup_filter; exact ND|].
  intros [px nx] [py ny] Hx Hy E; simpl in E; subst ny.
  apply filter_In in Hx; apply filter_In in Hy.
  destruct Hx as [_ Hx], Hy as [_ Hy]; simpl in *.
  apply andb_true_iff in Hx; apply andb_true_iff in Hy.
  destruct Hx as [Hx _], Hy as [Hy _].
  apply str_eqb_eq in Hx; apply str_eqb_eq in Hy; congruence.
Qed.

Lemma process_folder_run (w : world) :
  NoDup (List.map fst (files w)) ->
  exists log w',
    process_folder env folder w = (Ok (List.map entry log), w') /\
    List.map fst log = attempts env folder (json_files_in folder (files w)) w /\
    Forall (recorded env folder (files w')) log.
Proof.
  intros ND; apply json_files_names_nodup in ND.
  unfold process_folder, try_except, bind at 1, glob_json.
  destruct (json_files_in folder (files w)) as [|f rest] eqn:J.
  - exists []; eexists; repeat split; constructor.
  - destruct (folder_loop_run (f :: rest) [] w ND) as [log [w' [E [A [R _]]]]].
    { intros g _ H; exact H. }
    rewrite E; exists log, w'; auto.
Qed.

Lemma attempts_files (json_files : list path) :
  forall w, List.map fst (attempts env folder json_files w) = json_files.
Proof.
  induction json_files as [|f rest IH]; intros w; simpl; [reflexivity|].
  rewrite IH; reflexivity.
Qed.


Lemma attempts_static (json_files : list path) :
  forall (w : world) (fs0 : list (path * fnode)),
    NoDup (List.map name json_files) ->
    inputs_kept folder json_files ->
    (forall f, In f json_files ->
               fs_get f (files w) = fs_get f fs0 /\
               fs_get (destination folder f) (files w) =
               fs_get (destination folder f) fs0) ->
    Forall (fun a =>
              fs_get (fst a) (files (snd a)) = fs_get (fst a) fs0 /\
              fs_get (destination folder (fst a)) (files (snd a)) =
              fs_get (destination folder (fst a)) fs0)
           (attempts env folder json_files w).
Proof.
  induction json_files as [|f rest IH]; intros w fs0 ND Kept Same; simpl.
  - constructor.
  - simpl in ND; apply NoDup_cons_iff in ND; destruct ND as [Nf NDr].
    constructor; [simpl; apply Same; left; reflexivity|].
    destruct (folder_step f w) as [o [w1 [_ [After [Keep _]]]]].
    rewrite After; apply IH; [exact NDr | |].
    + intros a b Ha Hb; apply Kept; right; assumption.
    + intros g Hg.
      destruct (Same g (or_intror Hg)) as [S1 S2].
      rewrite !Keep; [split; assumption | |].
      * intros D; apply destination_inj in D.
        apply Nf; rewrite <- D; apply in_map; exact Hg.
      * apply Kept; [left; reflexivity | right; exact Hg].
Qed.

End FolderFacts.





Lemma in_json_files_parent (folder : str) (fs : list (path * fnode)) (f : path) :
  In f (json_files_in folder fs) -> parent f = folder.
Proof.
  unfold json_files_in; intros H; apply filter_In in H; destruct H as [_ H].
  apply andb_true_iff in H; destruct H as [H _]; apply str_eqb_eq; exact H.
Qed.

Example sample_folder_run :
  fst (process_folder sample_env data sample_world) =
  Ok [ (of_ascii "a.json", Success (of_ascii "data/processed_a.json") 2);
       (of_ascii "broken.json",
        Failure (JSONDecodeError (of_ascii "Expecting value")));
       (of_ascii "c.json", Success (of_ascii "data/processed_c.json") 1) ].
Proof. vm_compute. reflexivity. Qed.

Lemma sample_files_nodup : NoDup (List.map fst (files sample_world)).
Proof.
  simpl; repeat (constructor; [simpl; intros H; vm_compute in H;
                               intuition discriminate|]).
  constructor.
Qed.




Lemma success_entry_recorded (env : collaborators) (folder : str)
      (final : list (path * fnode)) (log : list (path * world * outcome))
      (file_name output_path : str) (product_count : nat) :
  Forall (recorded env folder final) log ->
  In (file_name, Success output_path product_count) (List.map entry log) ->
  exists f w0,
    In (f, w0, Success output_path product_count) log /\
    name f = file_name /\
    recorded env folder final (f, w0, Success output_path product_count).
Proof.
  intros R H; apply in_map_iff in H; destruct H as [[[f w0] o] [E H]].
  unfold entry in E; simpl in E; inversion E; subst.
  exists f, w0; split; [exact H|]; split; [reflexivity|].
  rewrite Forall_forall in R; apply R; exact H.
Qed.


Example sample_folder_written :
  fs_get (Path data (of_ascii "processed_a.json"))
         (files (snd (process_folder sample_env data sample_world))) =
  Some (TextFile
          (sample_dumps
             (JArray
                [JObject [(of_ascii "name", JString (of_ascii "Widget"));
                          (ai_summary,
                           JArray [JString (of_ascii "Durable");
                                   JString (of_ascii "Affordable")])];
                 JInt 7]))).
Proof. vm_compute. reflexivity. Qed.

Example sample_folder_written_indented :
  fs_get (Path data (of_ascii "processed_a.json"))
         (files (snd (process_folder layout_env data sample_world))) =
  Some (TextFile widget_output).
Proof. vm_compute. reflexivity. Qed.


(** C10. The [product_count] of a success entry is the number of elements
    of the array decoded from the text the file had when it was read, all
    elements counted, mappings or not; when no discovered file is the
    destination of another, that text is the one the file had when the run
    started. *)
Theorem product_count_is_array_length
        (env : collaborators) (folder : str) (w : world) :
  NoDup (List.map fst (files w)) ->
  exists results w',
    process_folder env folder w = (Ok results, w') /\
    forall file_name output_path product_count,
      In (file_name, Success output_path product_count) results ->
      exists w0 content items,
        In (Path folder file_name, w0)
           (attempts env folder (json_files_in folder (files w)) w) /\
        fs_get (Path folder file_name) (files w0) = Some (TextFile content) /\
        json_loads env content = Decoded (JArray items) /\
        product_count = length items /\
        (inputs_kept folder (json_files_in folder (files w)) ->
         fs_get (Path folder file_name) (files w) = Some (TextFile content)).
Proof.
  intros ND.
  destruct (process_folder_run env folder w ND) as [log [w' [E [A R]]]].
  pose proof (json_files_names_nodup folder (files w) ND) as NDn.
  exists (List.map entry log), w'; split; [exact E|].
  intros file_name output_path product_count H.
  destruct (success_entry_recorded _ _ _ _ _ _ _ R H) as [f [w0 [Hl [N Rl]]]].
  assert (Ha : In (f, w0)
                  (attempts env folder (json_files_in folder (files w)) w)).
  { rewrite <- A; apply in_map_iff; eexists; split; [|exact Hl]; reflexivity. }
  assert (Hf : In f (json_files_in folder (files w))).
  { rewrite <- (attempts_files env folder (json_files_in folder (files w)) w).
    apply in_map_iff; eexists; split; [|exact Ha]; reflexivity. }
  assert (Ef : f = Path folder file_name).
  { destruct f as [p n]; simpl in N; subst n.
    apply in_json_files_parent in Hf; simpl in Hf; subst p; reflexivity. }
  subst f.
  unfold recorded in Rl; simpl in Rl.
  destruct Rl as [_ [_ [content [items [out [G [D [_ [_ [C _]]]]]]]]]].
  exists w0, content, items; repeat split; auto.
  intros Kept.
  pose proof (attempts_static env folder _ w (files w) NDn Kept) as S.
  rewrite Forall_forall in S.
  destruct (S (fun g _ => conj eq_refl eq_refl) _ Ha) as [S1 _].
  simpl in S1; rewrite <- S1; exact G.
Qed.

Lemma product_count_is_array_length_witness :
  NoDup (List.map fst (files sample_world)) /\
  In (of_ascii "a.json", Success (of_ascii "data/processed_a.json") 2)
     (match fst (process_folder sample_env data sample_world) with
      | Ok results => results
      | Raise _ => []
      end) /\
  exists results w',
    process_folder sample_env data sample_world = (Ok results, w') /\
    forall file_name output_path product_count,
      In (file_name, Success output_path product_count) results ->
      exists w0 content items,
        In (Path data file_name, w0)
           (attempts sample_env data
              (json_files_in data (files sample_world)) sample_world) /\
        fs_get (Path data file_name) (files w0) = Some (TextFile content) /\
        json_loads sample_env content = Decoded (JArray items) /\
        product_count = length items /\
        (inputs_kept data (json_files_in data (files sample_world)) ->
         fs_get (Path data file_name) (files sample_world) =
         Some (TextFile content)).
Proof.
  split; [exact sample_files_nodup|].
  split; [rewrite sample_folder_run; left; reflexivity|].
  exact (product_count_is_array_length sample_env data sample_world
           sample_files_nodup).
Defined.

(** * Further properties *)

(** ** Bullet extraction on any text *)

Section StripMore.
Variable p : char -> bool.

Lemma lstrip_by_app (s t : str) :
  lstrip_by p (s ++ t) =
  match lstrip_by p s with
  | [] => lstrip_by p t
  | c :: rest => (c :: rest) ++ t
  end.
Proof.
  induction s as [|c s IH]; simpl; [destruct (lstrip_by p t); reflexivity|].
  destruct (p c); [exact IH | reflexivity].
Qed.

Lemma rstrip_by_app_all (s post : str) :
  forallb p post = true -> rstrip_by p (s ++ post) = rstrip_by p s.
Proof.
  intros F; unfold rstrip_by; rewrite rev_app_distr, lstrip_by_app.
  rewrite lstrip_by_all; [reflexivity|].
  rewrite forallb_forall in *; intros x H; apply F, in_rev; exact H.
Qed.

Lemma rstrip_by_stuck (front : str) (c : char) :
  p c = false -> rstrip_by p (front ++ [c]) = front ++ [c].
Proof.
  intros P; unfold rstrip_by; rewrite rev_app_distr; simpl; rewrite P.
  simpl; rewrite rev_involutive; reflexivity.
Qed.

Lemma lstrip_by_incl (s : str) (c : char) : In c (lstrip_by p s) -> In c s.
Proof.
  induction s as [|x s IH]; simpl; [tauto|].
  destruct (p x); [intros H; right; exact (IH H) | tauto].
Qed.

Lemma rstrip_by_incl (s : str) (c : char) : In c (rstrip_by p s) -> In c s.
Proof.
  unfold rstrip_by; intros H.
  apply in_rev in H; apply lstrip_by_incl in H; apply in_rev; exact H.
Qed.

End StripMore.

Lemma strip_incl (s : str) (c : char) : In c (strip s) -> In c s.
Proof.
  unfold strip; intros H.
  apply rstrip_by_incl in H; apply lstrip_by_incl in H; exact H.
Qed.

Lemma clean_incl (line : str) (c : char) : In c (Extract.clean line) -> In c line.
Proof.
  unfold Extract.clean, lstrip; intros H.
  apply strip_incl in H; apply lstrip_by_incl in H; apply strip_incl in H; exact H.
Qed.

Lemma strip_padded (ws1 s ws2 : str) :
  forallb isspace ws1 = true -> forallb isspace ws2 = true ->
  strip (ws1 ++ s ++ ws2) = strip s.
Proof.
  intros F1 F2; unfold strip.
  rewrite lstrip_by_app, (lstrip_by_all _ _ F1), lstrip_by_app.
  destruct (lstrip_by isspace s) as [|c rest] eqn:L.
  - rewrite (lstrip_by_all _ _ F2); reflexivity.
  - apply rstrip_by_app_all; exact F2.
Qed.

Lemma strip_of_trimmed (s : str) : trimmed s -> strip s = s.
Proof.
  intros [H T]; unfold strip.
  destruct s as [|c rest]; [reflexivity|].
  simpl; rewrite (H c rest eq_refl).
  destruct (exists_last (l := c :: rest)) as [front [x E]]; [discriminate|].
  rewrite E; apply rstrip_by_stuck; eapply T; exact E.
Qed.

Lemma split_lines_one_line (s : str) : Forall one_line (split newline s).
Proof.
  unfold one_line; induction s as [|c s IH]; simpl.
  - constructor; [tauto | constructor].
  - destruct (char_eqb c newline) eqn:E.
    + constructor; [simpl; tauto | exact IH].
    + assert (Nc : c <> newline).
      { intros ->; unfold char_eqb in E; rewrite N.eqb_refl in E; discriminate. }
      destruct (split newline s) as [|line lines].
      * constructor; [simpl; intuition congruence | constructor].
      * inversion IH; subst.
        constructor; [simpl; intuition congruence | assumption].
Qed.

Lemma count_filter_length {A} (q : A -> bool) (l : list A) :
  length (filter q l) = count q l.
Proof.
  induction l as [|x l IH]; simpl; [reflexivity|].
  destruct (q x); simpl; rewrite IH; reflexivity.
Qed.

Lemma filter_keeps_starts (lines : list str) :
  filter keeps lines = filter starts_with_marker lines.
Proof.
  apply filter_ext; intros l; apply keeps_starts_with_marker.
Qed.

Lemma clean_lines_one_line (lines : list str) :
  Forall one_line lines ->
  Forall one_line (List.map Extract.clean (filter starts_with_marker lines)).
Proof.
  induction 1 as [|l ls Hl O IH]; simpl; [constructor|].
  destruct (starts_with_marker l); [|exact IH].
  simpl; constructor; [|exact IH].
  intros H; apply Hl; eapply clean_incl; exact H.
Qed.

(** X1. Whatever the generated text, prose and empty lines included, the
    bullets are as many as the lines whose first character after the
    leading whitespace is a marker, they come in the order of those lines,
    each is its line without the surrounding whitespace and the leading
    run of markers, and none holds a line break. *)
Theorem bullets_follow_marker_lines (text : str) :
  exists bullets,
    Extract.bullet_points text = Ok bullets /\
    length bullets = count starts_with_marker (split newline text) /\
    Forall2 stripped_of (filter starts_with_marker (split newline text)) bullets /\
    Forall one_line bullets.
Proof.
  rewrite bullet_points_ok, filter_keeps_starts.
  eexists; split; [reflexivity|]; split; [|split].
  - rewrite length_map; apply count_filter_length.
  - induction (split newline text) as [|l ls IH]; simpl; [constructor|].
    destruct (starts_with_marker l) eqn:S; [|exact IH].
    simpl; constructor; [|exact IH].
    apply clean_stripped_of; rewrite keeps_starts_with_marker; exact S.
  - apply clean_lines_one_line, split_lines_one_line.
Qed.

(** X2. Indentation and trailing whitespace do not matter: adding
    whitespace that is not a line break before and after the lines of a
    text, for instance a carriage return at the end of each line, leaves
    the extracted bullets unchanged. *)
Theorem padding_is_ignored (lines lines' : list str) :
  Forall2 padded lines lines' ->
  Extract.bullet_points (join newline lines') =
  Extract.bullet_points (join newline lines).
Proof.
  intros P; rewrite !bullet_points_ok.
  assert (O' : Forall one_line lines').
  { induction P as [|l l' ls ls' [ws1 [ws2 [_ [_ [_ Hl]]]]] P IH];
      constructor; assumption. }
  assert (O : Forall one_line lines).
  { clear O'.
    induction P as [|l l' ls ls' [ws1 [ws2 [E [_ [_ Hl]]]]] P IH];
      [constructor|]; constructor; [|assumption].
    unfold one_line in *; intros H; apply Hl; rewrite E.
    apply in_or_app; right; apply in_or_app; left; exact H. }
  rewrite !filter_keeps_split_join by assumption.
  clear O O'; f_equal.
  induction P as [|l l' ls ls' [ws1 [ws2 [E [F1 [F2 _]]]]] P IH];
    simpl; [reflexivity|].
  assert (S : strip l' = strip l) by (rewrite E; apply strip_padded; assumption).
  assert (K : keeps l' = keeps l) by (unfold keeps; rewrite S; reflexivity).
  assert (C : Extract.clean l' = Extract.clean l)
    by (unfold Extract.clean; rewrite S; reflexivity).
  rewrite K; destruct (keeps l); simpl; rewrite ?C, IH; reflexivity.
Qed.

Lemma padding_is_ignored_witness :
  Extract.bullet_points
    (join newline [of_ascii "  - Durable" ++ [13%N]; of_ascii "* Cheap" ++ [13%N]]) =
  Extract.bullet_points (join newline [of_ascii "- Durable"; of_ascii "* Cheap"]).
Proof.
  apply padding_is_ignored.
  constructor; [|constructor; [|constructor]].
  - exists (of_ascii "  "), [13%N]; repeat split.
    unfold one_line; simpl; intuition discriminate.
  - exists [], [13%N]; repeat split.
    unfold one_line; simpl; intuition discriminate.
Defined.

Lemma clean_display_point (bullet : str) :
  trimmed bullet ->
  keeps (display_point bullet) = true /\
  Extract.clean (display_point bullet) = bullet.
Proof.
  intros T.
  assert (S : strip (display_point bullet) =
              match bullet with
              | [] => [bullet_char]
              | _ => display_point bullet
              end).
  { destruct bullet as [|c rest].
    - reflexivity.
    - apply strip_of_trimmed; split.
      + intros x r E; inversion E; reflexivity.
      + intros x front E.
        destruct (exists_last (l := c :: rest)) as [fr [y Ey]]; [discriminate|].
        unfold display_point in E; rewrite Ey in E.
        change (bullet_char :: 32%N :: fr ++ [y])
          with ((bullet_char :: 32%N :: fr) ++ [y]) in E.
        apply app_inj_tail in E; destruct E as [_ <-].
        destruct T as [_ T]; eapply T; exact Ey. }
  unfold keeps, Extract.clean; rewrite S.
  destruct bullet as [|c rest]; [split; reflexivity|].
  split; [reflexivity|].
  unfold display_point, lstrip; simpl lstrip_by.
  replace (32%N :: c :: rest) with ([32%N] ++ (c :: rest) ++ [])
    by (simpl; rewrite app_nil_r; reflexivity).
  rewrite strip_padded by reflexivity.
  apply strip_of_trimmed; exact T.
Qed.

(** X3. The preview prints a bullet as a U+2022, a space and the bullet
    (line 159); extracting from the lines so printed gives the bullets
    back.  So a displayed summary can be pasted back as generated text
    without loss, and the extraction is idempotent through the display. *)
Theorem displayed_bullets_extract_back (text : str) :
  exists bullets,
    Extract.bullet_points text = Ok bullets /\
    Extract.bullet_points (join newline (List.map display_point bullets)) =
    Ok bullets.
Proof.
  pose proof (clean_lines_one_line _ (split_lines_one_line text)) as O.
  rewrite (bullet_points_ok text), filter_keeps_starts.
  set (bullets := List.map Extract.clean
                    (filter starts_with_marker (split newline text))) in *.
  exists bullets; split; [reflexivity|].
  assert (T : Forall trimmed bullets).
  { apply Forall_forall; intros b H; apply in_map_iff in H.
    destruct H as [l [<- _]]; apply strip_trimmed. }
  assert (E : True) by exact I.
  rewrite bullet_points_ok, filter_keeps_split_join.
  - f_equal; clear E O.
    induction T as [|b bs Tb T IH]; simpl; [reflexivity|].
    destruct (clean_display_point b Tb) as [K C].
    rewrite K; simpl; rewrite C, IH; reflexivity.
  - clear E T; induction O as [|b bs Ob O IH]; simpl; constructor; [|exact IH].
    unfold one_line, display_point in *; simpl.
    intros [H|[H|H]]; [discriminate | discriminate | tauto].
Qed.

(** ** One document: effects and keys *)

Section AssocKeys.
Variables (V : Type).

Lemma has_key_set (k : str) (v : V) (d : list (str * V)) :
  has_key k (dict_set k v d) = true.
Proof.
  unfold has_key, dict_set.
  induction d as [|[k' v'] d IH]; simpl.
  - rewrite (proj2 (str_eqb_eq k k) eq_refl); reflexivity.
  - destruct (str_eqb k' k) eqn:E; simpl.
    + apply str_eqb_eq in E; subst k'.
      rewrite (proj2 (str_eqb_eq k k) eq_refl); reflexivity.
    + rewrite IH; apply orb_true_r.
Qed.

Lemma dict_set_keys (k : str) (v : V) (d : list (str * V)) :
  List.map fst (dict_set k v d) =
  if has_key k d then List.map fst d else List.map fst d ++ [k].
Proof.
  unfold has_key, dict_set.
  induction d as [|[k' v'] d IH]; simpl; [reflexivity|].
  destruct (str_eqb k' k) eqn:E; simpl.
  - apply str_eqb_eq in E; subst k'.
    rewrite (proj2 (str_eqb_eq k k) eq_refl); reflexivity.
  - assert (E' : str_eqb k k' = false).
    { destruct (str_eqb k k') eqn:F; [|reflexivity].
      apply str_eqb_eq in F; subst k'.
      rewrite (proj2 (str_eqb_eq k k) eq_refl) in E; discriminate. }
    rewrite E', IH; simpl.
    destruct (existsb (str_eqb k) (List.map fst d)); reflexivity.
Qed.

End AssocKeys.

Section ProgramMore.
Variable env : collaborators.

Lemma summary_table (product : json) (w : world) :
  exists bullets events,
    _generate_product_summary env product w =
    (Ok bullets, World (trace w ++ events) (files w)) /\
    match prompt_of env product with
    | Raise e => events = [StError summary_context e] /\ bullets = [error_marker]
    | Ok prompt =>
        match rbind (ollama_chat env (trace w) prompt) (fun response =>
              rbind (response_text response) Extract.bullet_points) with
        | Ok extracted => events = [Chat prompt] /\ bullets = extracted
        | Raise e =>
            events = [Chat prompt; StError summary_context e] /\
            bullets = [error_marker]
        end
    end.
Proof.
  unfold _generate_product_summary, try_except, prompt_of.
  rewrite summary_body_run.
  destruct (SUMMARY_PROMPT_format env _) as [prompt|e].
  - destruct (rbind _ _) as [bullets|e]; simpl.
    + exists bullets, [Chat prompt]; repeat split.
    + exists [error_marker], [Chat prompt; StError summary_context e].
      unfold bind, st_error, emit, ret; simpl.
      rewrite <- app_assoc; repeat split.
  - exists [error_marker], [StError summary_context e]; repeat split.
Qed.

Lemma enrich_effects (total : nat) (items : list json) :
  forall (i : nat) (w : world),
  exists out events,
    enrich env total i items w =
    (Ok out, World (trace w ++ events) (files w)) /\
    Forall2 summary_set items out /\
    chat_prompts events = expected_prompts env items /\
    Forall (fun e => from_document e = true) events.
Proof.
  induction items as [|x rest IH]; intros i w.
  - exists [], []; simpl; unfold ret; rewrite app_nil_r, world_eta.
    repeat split; constructor.
  - assert (Skip : is_dict x = false ->
             enrich env total i (x :: rest) w =
             (rest' <- enrich env total (S i) rest ;; ret (x :: rest')) w)
      by (destruct x; simpl; intros; (reflexivity || discriminate)).
    destruct x as [| | | | |l|fields];
      try (rewrite Skip by reflexivity;
           destruct (IH (S i) w) as [out [events [E [F [C D]]]]];
           unfold bind, ret; rewrite E;
           eexists _, events; split; [reflexivity|];
           split; [constructor; [reflexivity | exact F]|];
           split; [exact C | exact D]).
    simpl enrich; unfold bind at 1; unfold st_progress, emit at 1.
    set (w1 := World (trace w ++ [Progress i total]) (files w)).
    destruct (summary_table (JObject fields) w1) as [bullets [sev [Es T]]].
    unfold bind at 1; rewrite Es.
    set (w2 := World (trace w1 ++ sev) (files w1)).
    destruct (IH (S i) w2) as [out [events [E [F [C D]]]]].
    unfold bind, ret; rewrite E.
    eexists _, (Progress i total :: sev ++ events); split; [|split; [|split]].
    + subst w2 w1; simpl; rewrite <- !app_assoc; reflexivity.
    + constructor; [exists bullets; reflexivity | exact F].
    + simpl chat_prompts; simpl expected_prompts.
      destruct (prompt_of env (JObject fields)) as [prompt|e].
      * destruct (rbind _ _) as [b|e]; destruct T as [-> _]; simpl;
          rewrite C; reflexivity.
      * destruct T as [-> _]; simpl; exact C.
    + constructor; [reflexivity|].
      apply Forall_app; split; [|exact D].
      destruct (prompt_of env (JObject fields)) as [prompt|e].
      * destruct (rbind _ _) as [b|e]; destruct T as [-> _];
          repeat constructor.
      * destruct T as [-> _]; repeat constructor.
Qed.

Lemma expected_prompts_bound (items : list json) :
  length (expected_prompts env items) <= count is_dict items.
Proof.
  induction items as [|x rest IH]; simpl; [lia|].
  destruct x; simpl; try lia.
  destruct (prompt_of env _); simpl; lia.
Qed.

End ProgramMore.

(** X4. One call of [_generate_product_summary] never touches the file
    system and adds at most two events to the trace.  If the prompt cannot
    be built there is no chat call, only the error report; otherwise there
    is exactly one chat call, with the prompt built from the record's
    [indent=2] dump, followed by one error report exactly when the call or
    the reading of its answer failed; the reported exception is the one
    that occurred, and the bullets are then the error marker alone. *)
Theorem summary_effects (env : collaborators) (product : json) (w : world) :
  exists bullets events,
    _generate_product_summary env product w =
    (Ok bullets, World (trace w ++ events) (files w)) /\
    match prompt_of env product with
    | Raise e => events = [StError summary_context e] /\ bullets = [error_marker]
    | Ok prompt =>
        match rbind (ollama_chat env (trace w) prompt) (fun response =>
              rbind (response_text response) Extract.bullet_points) with
        | Ok extracted => events = [Chat prompt] /\ bullets = extracted
        | Raise e =>
            events = [Chat prompt; StError summary_context e] /\
            bullets = [error_marker]
        end
    end.
Proof. apply summary_table. Qed.

(** X5. While a document that decodes to an array is processed, the chat
    service is called once for each mapping whose prompt can be built, in
    the order of the array, each time with the prompt of that mapping as
    decoded; it is never called for an element that is not a mapping, so
    the calls are at most as many as the mappings, and an empty array
    makes none. *)
Theorem chat_calls_follow_mappings
        (env : collaborators) (text : str) (items : list json) (w : world) :
  json_loads env text = Decoded (JArray items) ->
  exists out events,
    process_json_document env text w =
    (Ok out, World (trace w ++ events) (files w)) /\
    chat_prompts events = expected_prompts env items /\
    length (chat_prompts events) <= count is_dict items.
Proof.
  intros D; rewrite document_run, D.
  destruct (enrich_effects env (length items) items 1 w)
    as [out [events [E [_ [C _]]]]].
  exists out, events; split; [exact E|]; split; [exact C|].
  rewrite C; apply expected_prompts_bound.
Qed.

Lemma chat_calls_follow_mappings_witness :
  exists out events,
    process_json_document sample_env widget_document empty_world =
    (Ok out, World (trace empty_world ++ events) (files empty_world)) /\
    chat_prompts events = expected_prompts sample_env widget_items /\
    length (chat_prompts events) <= 1.
Proof.
  apply (chat_calls_follow_mappings sample_env widget_document widget_items
           empty_world).
  reflexivity.
Defined.

(** X6. A mapping that already has the key [ai_summary] keeps its keys in
    their order, the summary replacing the old value in place; a mapping
    without it gets the key last.  No key is ever duplicated or moved. *)
Theorem summary_key_in_place
        (env : collaborators) (text : str) (items : list json) (w : world) :
  json_loads env text = Decoded (JArray items) ->
  exists out w',
    process_json_document env text w = (Ok out, w') /\
    Forall2 summary_in_place items out.
Proof.
  intros D; rewrite document_run, D.
  destruct (enrich_effects env (length items) items 1 w)
    as [out [events [E [F _]]]].
  exists out; eexists; split; [exact E|].
  eapply Forall2_impl; [|exact F].
  intros x y; destruct x; simpl; auto.
  intros [summary ->]; eexists; split; [reflexivity|].
  apply dict_set_keys.
Qed.

Lemma summary_key_in_place_witness :
  exists out w',
    process_json_document sample_env widget_document empty_world = (Ok out, w') /\
    Forall2 summary_in_place widget_items out.
Proof.
  apply (summary_key_in_place sample_env widget_document widget_items
           empty_world).
  reflexivity.
Defined.

(** X7. Processing again a list that [process_json_document] returned,
    for instance the content of a written file decoded back, changes no
    key list: every mapping keeps its keys in their order, only the value
    of [ai_summary] is replaced; the other elements are returned as they
    are. *)
Theorem reprocessing_keeps_keys
        (env : collaborators) (text text2 : str) (items out : list json)
        (w w' w2 : world) :
  json_loads env text = Decoded (JArray items) ->
  process_json_document env text w = (Ok out, w') ->
  json_loads env text2 = Decoded (JArray out) ->
  exists out2 w2',
    process_json_document env text2 w2 = (Ok out2, w2') /\
    Forall2 same_keys out out2.
Proof.
  intros D R D2.
  rewrite document_run, D in R.
  destruct (enrich_effects env (length items) items 1 w)
    as [out1 [events [E [F _]]]].
  rewrite E in R; inversion R; subst out1; clear R.
  rewrite document_run, D2.
  destruct (enrich_effects env (length out) out 1 w2)
    as [out2 [events2 [E2 [F2 _]]]].
  exists out2; eexists; split; [exact E2|].
  clear E E2 D D2.
  revert out2 F2; induction F as [|x y xs ys Hxy F IH]; intros out2 F2.
  - inversion F2; constructor.
  - inversion F2 as [|? y2 ? ys2 Hy F2']; subst.
    constructor; [|apply IH; exact F2'].
    destruct x; simpl in Hxy; try (subst y; simpl in *; exact Hy).
    destruct Hxy as [summary ->]; simpl in *.
    destruct Hy as [summary2 ->]; eexists; split; [reflexivity|].
    rewrite dict_set_keys, has_key_set; reflexivity.
Qed.

Lemma reprocessing_keeps_keys_witness :
  exists out2 w2',
    process_json_document
      (Collaborators
         (fun text => if str_eqb text (of_ascii "again")
                      then Decoded (JArray
                             (match fst (process_json_document sample_env
                                           widget_document empty_world) with
                              | Ok out => out
                              | Raise _ => []
                              end))
                      else sample_loads text)
         (json_dumps sample_env) (SUMMARY_PROMPT_format sample_env)
         (ollama_chat sample_env) (str_of_path sample_env))
      (of_ascii "again") empty_world = (Ok out2, w2') /\
    Forall2 same_keys
      (match fst (process_json_document sample_env widget_document empty_world) with
       | Ok out => out
       | Raise _ => []
       end) out2.
Proof.
  eapply (reprocessing_keeps_keys _ widget_document (of_ascii "again")
            widget_items _ empty_world _ empty_world).
  - reflexivity.
  - vm_compute; reflexivity.
  - vm_compute; reflexivity.
Defined.

Lemma document_effects (env : collaborators) (text : str) (w : world) :
  exists r events,
    process_json_document env text w = (r, World (trace w ++ events) (files w)) /\
    Forall (fun e => from_document e = true) events /\
    (forall e, r = Raise e -> exists context, events = [StError context e]) /\
    (json_loads env text = Decoded (JArray []) -> r = Ok [] /\ events = []).
Proof.
  rewrite document_run.
  destruct (json_loads env text) as [v|msg|e0] eqn:D.
  - destruct v as [| | | | |items|];
      try (eexists _, [_]; split; [reflexivity|];
           split; [repeat constructor|];
           split; [intros e R; inversion R; eauto | discriminate]).
    destruct (enrich_effects env (length items) items 1 w)
      as [out [events [E [_ [_ F]]]]].
    exists (Ok out), events; split; [exact E|]; split; [exact F|].
    split; [discriminate|].
    intros N; inversion N; subst items.
    simpl in E; unfold ret in E; inversion E as [[H1 H2]].
    split; [reflexivity|].
    apply (f_equal trace) in H2; simpl in H2.
    rewrite <- (app_nil_r (trace w)) in H2 at 1.
    apply app_inv_head in H2; symmetry; exact H2.
  - eexists _, [_]; split; [reflexivity|].
    split; [repeat constructor|].
    split; [intros e R; inversion R; eauto | discriminate].
  - eexists _, [_]; split; [reflexivity|].
    split; [repeat constructor|].
    split; [intros e R; inversion R; subst; eauto | discriminate].
Qed.

(** X8. [process_json_document] never touches the file system and only
    appends to the trace, and what it appends holds no [st.write] and no
    [st.warning].  When it raises, it has appended exactly one error
    report, for the exception it raises, and has made no chat call; on an
    empty array it returns the empty list and appends nothing. *)
Theorem document_only_logs (env : collaborators) (text : str) (w : world) :
  exists r events,
    process_json_document env text w = (r, World (trace w ++ events) (files w)) /\
    Forall (fun e => from_document e = true) events /\
    (forall e, r = Raise e -> exists context, events = [StError context e]) /\
    (json_loads env text = Decoded (JArray []) -> r = Ok [] /\ events = []).
Proof. apply document_effects. Qed.

(** ** Folder mode: what is written and what is shown *)

Lemma assoc_get_in {K V} (eqb : K -> K -> bool)
      (eqb_eq : forall a b, eqb a b = true <-> a = b)
      (k : K) (v : V) (d : list (K * V)) :
  assoc_get eqb k d = Some v -> In k (List.map fst d).
Proof.
  induction d as [|[k' v'] d IH]; simpl; [discriminate|].
  destruct (eqb k' k) eqn:E; [|intros H; right; exact (IH H)].
  apply eqb_eq in E; intros _; left; exact E.
Qed.

Lemma endswith_app (pre s suffix : str) :
  endswith s suffix = true -> endswith (pre ++ s) suffix = true.
Proof.
  unfold endswith; rewrite !str_eqb_eq; intros E.
  assert (L : length suffix <= length s).
  { apply (f_equal (@length char)) in E; rewrite length_skipn in E; lia. }
  rewrite skipn_app, length_app.
  replace (length pre + length s - length suffix - length pre)
    with (length s - length suffix) by lia.
  rewrite E, skipn_all2; [reflexivity | lia].
Qed.

Section FolderMore.
Variable env : collaborators.
Variable folder : str.

Lemma file_body_effects (json_file : path) (w0 : world) :
  exists inner,
    Forall (fun e => from_document e = true) inner /\
    ((exists e,
         forall results,
           file_body env folder json_file results w0 =
           (Raise e, World (trace w0 ++ inner) (files w0)))
     \/
     (exists output_path product_count text,
         forall results,
           file_body env folder json_file results w0 =
           (Ok (dict_set (name json_file)
                  (Success output_path product_count) results),
            World (trace w0 ++ inner)
                  (fs_set (destination folder json_file) (TextFile text)
                     (files w0))))).
Proof.
  destruct (fs_get json_file (files w0)) as [[content| |]|] eqn:G;
    try (exists []; split; [constructor|]; left; eexists; intros results;
         rewrite file_body_eq; unfold read_text; rewrite G;
         rewrite app_nil_r, world_eta; reflexivity).
  destruct (document_effects env content w0) as [r [inner [E [F _]]]].
  exists inner; split; [exact F|].
  destruct r as [out|e].
  - destruct (fs_get (destination folder json_file) (files w0))
      as [[text| |]|] eqn:W;
      [ | | left; eexists; intros results;
            rewrite file_body_eq; unfold read_text; rewrite G, E;
            unfold write_text; simpl; rewrite W; reflexivity | ].
    all: right; eexists _, _, _; intros results.
    all: rewrite file_body_eq; unfold read_text; rewrite G, E.
    all: unfold write_text; simpl; rewrite W; reflexivity.
  - left; exists e; intros results.
    rewrite file_body_eq; unfold read_text; rewrite G, E; reflexivity.
Qed.

Lemma folder_step_effects (json_file : path) (w : world) :
  exists o w1 events,
    (forall results rest,
        folder_loop env folder (json_file :: rest) results w =
        folder_loop env folder rest (dict_set (name json_file) o results) w1) /\
    trace w1 = trace w ++ events /\
    file_block (json_file, o) events /\
    (is_success o = false -> files w1 = files w) /\
    (forall p, p <> destination folder json_file ->
               fs_get p (files w1) = fs_get p (files w)).
Proof.
  destruct (file_body_effects json_file (attempt_world json_file w))
    as [inner [F [[e B]|[output_path [product_count [text B]]]]]].
  - exists (Failure e); eexists; eexists; split; [|split; [|split; [|split]]].
    + intros results rest; simpl folder_loop.
      unfold bind at 1, st_write, emit.
      unfold bind at 1, try_except.
      fold (attempt_world json_file w); rewrite B.
      unfold bind, st_error, emit, ret; simpl. reflexivity.
    + simpl; rewrite <- !app_assoc; reflexivity.
    + exists inner; split; [exact F | reflexivity].
    + reflexivity.
    + reflexivity.
  - exists (Success output_path product_count); eexists; eexists.
    split; [|split; [|split; [|split]]].
    + intros results rest; simpl folder_loop.
      unfold bind at 1, st_write, emit.
      unfold bind at 1, try_except.
      fold (attempt_world json_file w); rewrite B. reflexivity.
    + simpl; rewrite <- !app_assoc; reflexivity.
    + exists inner; split; [exact F | simpl; rewrite app_nil_r; reflexivity].
    + discriminate.
    + intros p N; simpl; apply fs_get_set_other; exact N.
Qed.

Lemma folder_loop_effects (json_files : list path) :
  forall results w,
  exists outcomes blocks w',
    folder_loop env folder json_files results w =
    (Ok (assign_all results (combine json_files outcomes)), w') /\
    length outcomes = length json_files /\
    trace w' = trace w ++ concat blocks /\
    Forall2 file_block (combine json_files outcomes) blocks /\
    (forall p,
        (forall a, In a (combine json_files outcomes) ->
                   is_success (snd a) = true ->
                   p <> destination folder (fst a)) ->
        fs_get p (files w') = fs_get p (files w)).
Proof.
  induction json_files as [|f rest IH]; intros results w.
  - exists [], [], w; simpl; rewrite app_nil_r; repeat split; constructor.
  - destruct (folder_step_effects f w) as [o [w1 [events [Step [T [B [Fl Keep]]]]]]].
    destruct (IH (dict_set (name f) o results) w1)
      as [outcomes [blocks [w' [E [L [T' [Bs P]]]]]]].
    exists (o :: outcomes), (events :: blocks), w'.
    split; [|split; [|split; [|split]]].
    + rewrite Step, E; reflexivity.
    + simpl; rewrite L; reflexivity.
    + rewrite T', T; simpl; rewrite <- app_assoc; reflexivity.
    + simpl; constructor; assumption.
    + intros p Hp; rewrite P.
      * destruct (is_success o) eqn:S.
        -- apply Keep; apply (Hp (f, o)); [left; reflexivity | exact S].
        -- rewrite (Fl eq_refl); reflexivity.
      * intros a Ha; apply Hp; right; exact Ha.
Qed.

Lemma assign_all_fresh (turns : list (path * outcome)) :
  forall results,
    NoDup (List.map (fun a => name (fst a)) turns) ->
    (forall a, In a turns -> ~ In (name (fst a)) (List.map fst results)) ->
    assign_all results turns =
    results ++ List.map (fun a => (name (fst a), snd a)) turns.
Proof.
  unfold assign_all.
  induction turns as [|[f o] rest IH]; intros results ND Fresh; simpl.
  - rewrite app_nil_r; reflexivity.
  - simpl in ND; apply NoDup_cons_iff in ND; destruct ND as [Nf NDr].
    assert (S : dict_set (name f) o results = results ++ [(name f, o)]).
    { apply assoc_set_last_absent; [apply str_eqb_eq|].
      apply (Fresh (f, o)); left; reflexivity. }
    rewrite S, IH; [rewrite <- app_assoc; reflexivity | exact NDr |].
    intros a Ha; rewrite map_app, in_app_iff; simpl.
    intros [H|[H|[]]].
    + exact (Fresh a (or_intror Ha) H).
    + apply Nf; rewrite H.
      apply (in_map (fun a => name (fst a))); exact Ha.
Qed.

Lemma combine_names (json_files : list path) (outcomes : list outcome) :
  length outcomes = length json_files ->
  List.map (fun a : path * outcome => name (fst a)) (combine json_files outcomes) =
  List.map name json_files.
Proof.
  revert outcomes; induction json_files as [|f rest IH]; intros [|o os] L;
    simpl in *; try discriminate; [reflexivity|].
  rewrite IH; [reflexivity | lia].
Qed.

Lemma process_folder_effects (w : world) :
  NoDup (List.map fst (files w)) ->
  exists outcomes blocks w',
    process_folder env folder w =
    (Ok (List.map (fun a => (name (fst a), snd a))
           (combine (json_files_in folder (files w)) outcomes)), w') /\
    length outcomes = length (json_files_in folder (files w)) /\
    trace w' =
    trace w
    ++ match json_files_in folder (files w) with
       | [] => [StWarning (of_ascii "No JSON files found in " ++ folder)]
       | _ => concat blocks
       end /\
    Forall2 file_block (combine (json_files_in folder (files w)) outcomes) blocks /\
    (forall p,
        (forall a, In a (combine (json_files_in folder (files w)) outcomes) ->
                   is_success (snd a) = true ->
                   p <> destination folder (fst a)) ->
        fs_get p (files w') = fs_get p (files w)).
Proof.
  intros ND; apply (json_files_names_nodup folder) in ND.
  unfold process_folder, try_except, bind at 1, glob_json.
  destruct (json_files_in folder (files w)) as [|f rest] eqn:J.
  - exists [], []; eexists; simpl; repeat split; constructor.
  - destruct (folder_loop_effects (f :: rest) [] w)
      as [outcomes [blocks [w' [E [L [T [B P]]]]]]].
    rewrite E, assign_all_fresh.
    + exists outcomes, blocks, w'; repeat split; assumption.
    + rewrite combine_names; assumption.
    + intros a _ H; exact H.
Qed.

End FolderMore.

Lemma from_document_silent (inner : list event) :
  Forall (fun e => from_document e = true) inner ->
  announcements inner = [] /\ warnings inner = [].
Proof.
  induction 1 as [|e l He F [IH1 IH2]]; simpl; [split; reflexivity|].
  destruct e; simpl in He; try discriminate; split; assumption.
Qed.

Lemma announcements_app (l1 l2 : list event) :
  announcements (l1 ++ l2) = announcements l1 ++ announcements l2.
Proof.
  induction l1 as [|e l1 IH]; simpl; [reflexivity|].
  destruct e; simpl; rewrite IH; reflexivity.
Qed.

Lemma warnings_app (l1 l2 : list event) :
  warnings (l1 ++ l2) = warnings l1 ++ warnings l2.
Proof.
  induction l1 as [|e l1 IH]; simpl; [reflexivity|].
  destruct e; simpl; rewrite IH; reflexivity.
Qed.

Lemma file_block_shown (a : path * outcome) (block : list event) :
  file_block a block ->
  announcements block = [announcement (fst a)] /\ warnings block = [].
Proof.
  intros [inner [F ->]]; simpl.
  rewrite announcements_app, warnings_app.
  destruct (from_document_silent inner F) as [-> ->].
  destruct (snd a); split; reflexivity.
Qed.

Lemma blocks_shown (turns : list (path * outcome)) (blocks : list (list event)) :
  Forall2 file_block turns blocks ->
  announcements (concat blocks) = List.map (fun a => announcement (fst a)) turns /\
  warnings (concat blocks) = [].
Proof.
  induction 1 as [|a b turns blocks Hb F [IH1 IH2]]; simpl; [split; reflexivity|].
  rewrite announcements_app, warnings_app, IH1, IH2.
  destruct (file_block_shown a b Hb) as [-> ->]; split; reflexivity.
Qed.




(** X10. A warning is shown exactly when the folder has no JSON file.
    In that case the result is the empty map and nothing else happens: no
    file is read or written and no chat call is made.  Files whose name
    does not end in [.json] do not count. *)
Theorem empty_folder_only_warns
        (env : collaborators) (folder : str) (w : world) :
  NoDup (List.map fst (files w)) ->
  exists results events w',
    process_folder env folder w = (Ok results, w') /\
    trace w' = trace w ++ events /\
    (json_files_in folder (files w) = [] ->
     results = [] /\
     events = [StWarning (of_ascii "No JSON files found in " ++ folder)] /\
     files w' = files w) /\
    (json_files_in folder (files w) <> [] ->
     results <> [] /\ warnings events = []).
Proof.
  intros ND.
  destruct (process_folder_effects env folder w ND)
    as [outcomes [blocks [w' [E [L [T [B _]]]]]]].
  eexists; eexists; exists w'; split; [exact E|]; split; [exact T|].
  destruct (json_files_in folder (files w)) as [|f rest] eqn:J.
  - split; [|congruence]; intros _.
    destruct outcomes; [|discriminate].
    split; [reflexivity|]; split; [reflexivity|].
    unfold process_folder, try_except, bind at 1, glob_json in E.
    rewrite J in E; unfold bind, st_warning, emit, ret in E; simpl in E.
    inversion E; reflexivity.
  - split; [congruence|]; intros _.
    destruct outcomes as [|o os]; [discriminate|].
    split; [simpl; discriminate|].
    apply (blocks_shown _ _ B).
Qed.

Lemma empty_folder_only_warns_witness :
  exists results events w',
    process_folder sample_env (of_ascii "elsewhere") sample_world = (Ok results, w') /\
    trace w' = trace sample_world ++ events /\
    results = [] /\
    events = [StWarning (of_ascii "No JSON files found in elsewhere")] /\
    files w' = files sample_world.
Proof.
  destruct (empty_folder_only_warns sample_env (of_ascii "elsewhere")
              sample_world sample_files_nodup)
    as [results [events [w' [E [T [Empty _]]]]]].
  exists results, events, w'; split; [exact E|]; split; [exact T|].
  apply Empty; reflexivity.
Defined.




(** X12. The copy written for a successful file is itself a JSON file of
    the same folder: after the run, [folder / processed_<name>] is among
    the files a new run over the folder discovers, so running again
    processes the outputs of the first run as well. *)
Theorem outputs_are_discovered_next
        (env : collaborators) (folder : str) (w : world) :
  NoDup (List.map fst (files w)) ->
  exists results w',
    process_folder env folder w = (Ok results, w') /\
    forall file_name output_path product_count,
      In (file_name, Success output_path product_count) results ->
      In (Path folder (processed_name file_name))
         (json_files_in folder (files w')).
Proof.
  intros ND.
  destruct (process_folder_run env folder w ND) as [log [w' [E [A R]]]].
  exists (List.map entry log), w'; split; [exact E|].
  intros file_name output_path product_count H.
  destruct (success_entry_recorded _ _ _ _ _ _ _ R H) as [f [w0 [Hl [N Rl]]]].
  assert (Hf : In f (json_files_in folder (files w))).
  { rewrite <- (attempts_files env folder (json_files_in folder (files w)) w).
    rewrite <- A, map_map.
    apply in_map_iff; eexists; split; [|exact Hl]; reflexivity. }
  unfold recorded, destination in Rl; simpl in Rl; rewrite N in Rl.
  destruct Rl as [_ [_ [content [items [out [_ [_ [_ [_ [_ W]]]]]]]]]].
  unfold json_files_in in *; apply filter_In in Hf; destruct Hf as [_ Hf].
  apply andb_true_iff in Hf; destruct Hf as [_ Hs]; rewrite N in Hs.
  apply filter_In; split.
  - eapply assoc_get_in; [apply path_eqb_eq | exact W].
  - simpl; rewrite (proj2 (str_eqb_eq folder folder) eq_refl); simpl.
    apply endswith_app; exact Hs.
Qed.

Lemma outputs_are_discovered_next_witness :
  exists results w',
    process_folder sample_env data sample_world = (Ok results, w') /\
    In (Path data (of_ascii "processed_a.json")) (json_files_in data (files w')).
Proof.
  destruct (outputs_are_discovered_next sample_env data sample_world
              sample_files_nodup)
    as [results [w' [E D]]].
  exists results, w'; split; [exact E|].
  apply (D (of_ascii "a.json") (of_ascii "data/processed_a.json") 2).
  pose proof sample_folder_run as S; rewrite E in S; simpl in S.
  inversion S; left; reflexivity.
Defined.

(** ** Single-document mode *)

Lemma skipn_length_app {A} (l l' : list A) : skipn (length l) (l ++ l') = l'.
Proof. induction l as [|x l IH]; simpl; [reflexivity | exact IH]. Qed.

Lemma run_appends {A} (c : M A) (s : session) (r : result A)
      (events : list event) (fs : list (path * fnode)) :
  c (backend s) = (r, World (trace (backend s) ++ events) fs) ->
  run c s =
  (r, Session (World (trace (backend s) ++ events) fs)
              (timeline s ++ List.map Logged events)).
Proof.
  intros H; unfold run; rewrite H; simpl.
  rewrite skipn_length_app; reflexivity.
Qed.

Lemma run_st_write (msg : str) (s : session) :
  run (st_write msg) s =
  (Ok tt, Session (World (trace (backend s) ++ [StWrite msg]) (files (backend s)))
                  (timeline s ++ [Logged (StWrite msg)])).
Proof. apply (run_appends (st_write msg) s (Ok tt) [StWrite msg]); reflexivity. Qed.

Lemma run_st_error (context : str) (e : exn) (s : session) :
  run (st_error context e) s =
  (Ok tt, Session (World (trace (backend s) ++ [StError context e])
                         (files (backend s)))
                  (timeline s ++ [Logged (StError context e)])).
Proof.
  apply (run_appends (st_error context e) s (Ok tt) [StError context e]);
    reflexivity.
Qed.

Lemma ubind_ok {A B} (c : UI A) (k : A -> UI B) (s s' : session) (a : A) :
  c s = (Ok a, s') -> ubind c k s = k a s'.
Proof. intros H; unfold ubind; rewrite H; reflexivity. Qed.

Lemma ubind_raise {A B} (c : UI A) (k : A -> UI B) (s s' : session) (e : exn) :
  c s = (Raise e, s') -> ubind c k s = (Raise e, s').
Proof. intros H; unfold ubind; rewrite H; reflexivity. Qed.

Lemma session_grow_nil (s : session) :
  Session (World (trace (backend s) ++ []) (files (backend s))) (timeline s ++ []) = s.
Proof. rewrite !app_nil_r; destruct s as [[t f] l]; reflexivity. Qed.

Section SingleFacts.
Variable env : collaborators.
Variable decode_utf8 : list Byte.byte -> result str.
Variable py_str : json -> str.

Lemma write_points_run (points : list json) :
  forall s, exists events added,
    write_points py_str points s =
    (Ok tt, Session (World (trace (backend s) ++ events) (files (backend s)))
                    (timeline s ++ added)) /\
    Forall (fun x => is_widget x = false) added.
Proof.
  induction points as [|point rest IH]; intros s.
  - exists [], []; simpl; unfold uret; rewrite session_grow_nil.
    split; [reflexivity | constructor].
  - simpl; erewrite ubind_ok by apply run_st_write.
    match goal with |- context [write_points py_str rest ?s1] =>
      destruct (IH s1) as [events [added [E F]]] end.
    rewrite E; simpl.
    eexists (_ :: events), (_ :: added); split.
    + rewrite <- !app_assoc; reflexivity.
    + constructor; [reflexivity | exact F].
Qed.

Lemma preview_run (total : nat) (products : list json) :
  forall idx s,
    Forall summary_listed products ->
    exists events added,
      preview py_str total idx products s =
      ((if forallb is_dict products then Ok tt else Raise TypeError),
       Session (World (trace (backend s) ++ events) (files (backend s)))
               (timeline s ++ added)) /\
      Forall (fun x => in_preview x = true) added /\
      (forallb is_dict products = true ->
       filter is_widget added = preview_widgets total idx products).
Proof.
  induction products as [|product rest IH]; intros idx s L.
  - exists [], []; simpl; unfold uret; rewrite session_grow_nil.
    repeat split; constructor.
  - inversion L as [|? ? Lp Lr]; subst.
    simpl preview.
    erewrite ubind_ok by apply run_st_write.
    erewrite ubind_ok by reflexivity.
    erewrite ubind_ok by apply run_st_write.
    cbn [backend timeline trace files].
    destruct product as [| | | | |l|fields];
      try (erewrite ubind_raise by reflexivity;
           eexists [_; _], [_; _; _]; simpl;
           split; [rewrite <- !app_assoc; reflexivity|];
           split; [repeat constructor | discriminate]).
    destruct Lp as [l Gl].
    erewrite ubind_ok by (unfold ulift, getitem; rewrite Gl; reflexivity).
    erewrite ubind_ok by reflexivity.
    match goal with |- context [ubind (write_points py_str l) _ ?s1] =>
      destruct (write_points_run l s1) as [ev1 [ad1 [E1 F1]]] end.
    erewrite ubind_ok by exact E1.
    cbn [backend timeline trace files].
    assert (W1 : filter is_widget ad1 = []).
    { clear -F1; induction F1 as [|x l H F IH]; simpl; [reflexivity|].
      rewrite H; exact IH. }
    assert (P1 : Forall (fun x => in_preview x = true) ad1).
    { eapply Forall_impl; [|exact F1].
      intros x; destruct x; simpl; intros; (reflexivity || discriminate). }
    destruct (idx <? total) eqn:Lt.
    + erewrite ubind_ok by reflexivity.
      cbn [backend timeline trace files].
      match goal with |- context [preview py_str total (S idx) rest ?s1] =>
        destruct (IH (S idx) s1 Lr) as [ev2 [ad2 [E2 [P2 W2]]]] end.
      rewrite E2; cbn [backend timeline trace files].
      eexists (_ :: _ :: ev1 ++ ev2),
              (_ :: _ :: _ :: ad1 ++ _ :: ad2).
      split; [|split].
      * cbn [backend timeline trace files]; rewrite <- ?app_assoc;
          cbn [app]; rewrite <- ?app_assoc; reflexivity.
      * repeat (constructor; [reflexivity|]).
        apply Forall_app; split; [exact P1|].
        constructor; [reflexivity | exact P2].
      * intros D; simpl; rewrite Lt.
        rewrite filter_app, W1; simpl; rewrite (W2 D); reflexivity.
    + erewrite ubind_ok by reflexivity.
      cbn [backend timeline trace files].
      match goal with |- context [preview py_str total (S idx) rest ?s1] =>
        destruct (IH (S idx) s1 Lr) as [ev2 [ad2 [E2 [P2 W2]]]] end.
      rewrite E2; cbn [backend timeline trace files].
      eexists (_ :: _ :: ev1 ++ ev2), (_ :: _ :: _ :: ad1 ++ ad2).
      split; [|split].
      * cbn [backend timeline trace files]; rewrite <- ?app_assoc;
          cbn [app]; rewrite <- ?app_assoc; reflexivity.
      * repeat (constructor; [reflexivity|]).
        apply Forall_app; split; assumption.
      * intros D; simpl; rewrite Lt.
        rewrite filter_app, W1; simpl; rewrite (W2 D); reflexivity.
Qed.

Lemma summary_set_view (items out : list json) :
  Forall2 summary_set items out ->
  Forall summary_listed out /\
  length out = length items /\
  forall n, forallb is_dict (firstn n out) = forallb is_dict (firstn n items).
Proof.
  induction 1 as [|x y xs ys Hxy F [IH1 [IH2 IH3]]].
  - split; [constructor|]; split; [reflexivity|].
    intros n; destruct n; reflexivity.
  - assert (Hy : summary_listed y /\ is_dict y = is_dict x).
    { destruct x; simpl in Hxy; try (subst y; split; [exact I | reflexivity]).
      destruct Hxy as [summary ->]; split; [|reflexivity].
      eexists; apply dict_get_set_same. }
    destruct Hy as [Hy1 Hy2].
    split; [constructor; assumption|]; split; [simpl; rewrite IH2; reflexivity|].
    intros [|n]; simpl; [reflexivity|]; rewrite Hy2, IH3; reflexivity.
Qed.

Lemma json_file_body_page (text : str) (items : list json) (s : session) :
  json_loads env text = Decoded (JArray items) ->
  exists out events doc_events shown_preview,
    Forall2 summary_set items out /\
    Forall (fun x => in_preview x = true) shown_preview /\
    (forallb is_dict (firstn 3 items) = true ->
     filter is_widget shown_preview =
     preview_widgets (length items) 1 (firstn 3 out)) /\
    json_file_body env decode_utf8 py_str (Text text) s =
    ((if forallb is_dict (firstn 3 items) then Ok tt else Raise TypeError),
     Session (World (trace (backend s) ++ events) (files (backend s)))
             (timeline s
              ++ List.map Logged doc_events
              ++ download_button env out :: success_banner
                 :: StSubheader (of_ascii "Sample Results")
                 :: shown_preview
              ++ (if forallb is_dict (firstn 3 items)
                  then if 3 <? length items then [more_products (length items)]
                       else []
                  else []))).
Proof.
  intros D.
  destruct (enrich_effects env (length items) items 1 (backend s))
    as [out [doc_events [E [F _]]]].
  destruct (summary_set_view items out F) as [V [Len Dicts]].
  assert (R : run (process_json_document env text) s =
              (Ok out,
               Session (World (trace (backend s) ++ doc_events) (files (backend s)))
                       (timeline s ++ List.map Logged doc_events))).
  { apply run_appends; rewrite document_run, D; exact E. }
  set (s3 := Session (World (trace (backend s) ++ doc_events) (files (backend s)))
               (timeline s ++ List.map Logged doc_events
                ++ [download_button env out; success_banner;
                    StSubheader (of_ascii "Sample Results")])).
  assert (V3 : Forall summary_listed (firstn 3 out)).
  { rewrite <- (firstn_skipn 3 out) in V; apply Forall_app in V; tauto. }
  destruct (preview_run (length out) (firstn 3 out) 1 s3 V3)
    as [ev [pv [P [Fp Wp]]]].
  rewrite Dicts, Len in *.
  exists out, (doc_events ++ ev), doc_events, pv.
  split; [exact F|]; split; [exact Fp|]; split; [exact Wp|].
  unfold json_file_body.
  erewrite ubind_ok by reflexivity.
  erewrite ubind_ok by exact R.
  erewrite ubind_ok by reflexivity.
  erewrite ubind_ok by reflexivity.
  erewrite ubind_ok by reflexivity.
  cbn [backend timeline trace files].
  rewrite Len.
  replace (Session _ _) with s3
    by (unfold s3; rewrite <- !app_assoc; reflexivity).
  destruct (forallb is_dict (firstn 3 items)).
  - erewrite ubind_ok by exact P.
    unfold s3; cbn [backend timeline trace files].
    destruct (3 <? length items); unfold show, uret;
      cbn [backend timeline trace files];
      rewrite <- ?app_assoc; cbn [app]; rewrite ?app_nil_r; reflexivity.
  - erewrite ubind_raise by exact P.
    unfold s3; cbn [backend timeline trace files].
    rewrite <- ?app_assoc; cbn [app]; rewrite ?app_nil_r; reflexivity.
Qed.

End SingleFacts.

Lemma count_app {A} (q : A -> bool) (l1 l2 : list A) :
  count q (l1 ++ l2) = count q l1 + count q l2.
Proof. induction l1 as [|x l1 IH]; simpl; [reflexivity|]; rewrite IH; lia. Qed.

Lemma count_none {A} (q : A -> bool) (l : list A) :
  Forall (fun x => q x = false) l -> count q l = 0.
Proof. induction 1 as [|x l H F IH]; simpl; [|rewrite H, IH]; reflexivity. Qed.



Lemma logged_none (q : shown -> bool) (events : list event) :
  (forall e, q (Logged e) = false) ->
  Forall (fun x => q x = false) (List.map Logged events).
Proof.
  intros H; apply Forall_forall; intros x Hx.
  apply in_map_iff in Hx; destruct Hx as [e [<- _]]; apply H.
Qed.


(** X13. In single-document mode the preview reads [ai_summary] of each
    of the first three elements, so a document whose first three elements
    are not all mappings makes [process_json_file] raise a [TypeError],
    although the document itself was processed: by then the download
    button and the message that the products were processed successfully
    are on the page, and the error report comes last. *)
Theorem preview_raises_on_other_elements
        (env : collaborators) (decode_utf8 : list Byte.byte -> result str)
        (py_str : json -> str) (text : str) (items : list json) (s : session) :
  json_loads env text = Decoded (JArray items) ->
  forallb is_dict (firstn 3 items) = false ->
  exists front s',
    process_json_file env decode_utf8 py_str (Text text) s =
    (Raise TypeError, s') /\
    timeline s' = timeline s ++ front ++ [Logged (StError file_context TypeError)] /\
    In success_banner front /\
    count is_download front = 1 /\
    files (backend s') = files (backend s).
Proof.
  intros D N.
  destruct (json_file_body_page env decode_utf8 py_str text items s D)
    as [out [events [doc_events [pv [_ [Fp [_ B]]]]]]].
  rewrite N in B.
  unfold process_json_file, utry; rewrite B.
  erewrite ubind_ok by apply run_st_error.
  unfold uraise; cbn [backend timeline trace files].
  exists (List.map Logged doc_events
          ++ download_button env out :: success_banner
             :: StSubheader (of_ascii "Sample Results") :: pv).
  eexists; split; [reflexivity|].
  cbn [backend timeline trace files].
  split.
  { rewrite app_nil_r, <- (app_assoc (timeline s)); reflexivity. }
  split; [apply in_or_app; right; right; left; reflexivity|].
  split; [|reflexivity].
  rewrite count_app, count_none by (apply logged_none; reflexivity).
  cbn [count is_download download_button success_banner].
  rewrite count_none; [reflexivity|].
  eapply Forall_impl; [|exact Fp].
  intros x; destruct x; simpl; intros; (reflexivity || discriminate).
Qed.

Lemma preview_raises_on_other_elements_witness :
  exists front s',
    process_json_file sample_env ascii_decode sample_dumps
      (Text widget_document) empty_session = (Raise TypeError, s') /\
    timeline s' =
    timeline empty_session ++ front ++ [Logged (StError file_context TypeError)] /\
    In success_banner front /\
    count is_download front = 1 /\
    files (backend s') = files (backend empty_session).
Proof.
  apply (preview_raises_on_other_elements sample_env ascii_decode sample_dumps
           widget_document widget_items empty_session); reflexivity.
Defined.



(** X15. A document that is not a JSON array is reported twice in
    single-document mode: [process_json_document] reports it and raises,
    then [process_json_file] reports the same exception under its own
    heading and raises it again.  Nothing else is put on the page: no
    download button, no success message, no chat call. *)
Theorem document_error_is_reported_twice
        (env : collaborators) (decode_utf8 : list Byte.byte -> result str)
        (py_str : json -> str) (text : str) (s : session) :
  (forall items, json_loads env text <> Decoded (JArray items)) ->
  exists e context,
    process_json_file env decode_utf8 py_str (Text text) s =
    (Raise e,
     Session (World (trace (backend s)
                     ++ [StError context e; StError file_context e])
                    (files (backend s)))
             (timeline s
              ++ [Logged (StError context e); Logged (StError file_context e)])).
Proof.
  intros N.
  assert (R : exists e context,
             process_json_document env text (backend s) =
             (Raise e, World (trace (backend s) ++ [StError context e])
                             (files (backend s)))).
  { rewrite document_run.
    destruct (json_loads env text) as [v|msg|e0]; [|eauto|eauto].
    destruct v; eauto.
    exfalso; eapply N; reflexivity. }
  destruct R as [e [context R]].
  exists e, context.
  unfold process_json_file, utry, json_file_body.
  erewrite ubind_ok by reflexivity.
  erewrite ubind_raise by (apply run_appends; exact R).
  erewrite ubind_ok by apply run_st_error.
  unfold uraise; cbn [backend timeline trace files List.map].
  rewrite <- !app_assoc; reflexivity.
Qed.

Lemma document_error_is_reported_twice_witness :
  exists e context,
    process_json_file sample_env ascii_decode sample_dumps
      (Text (of_ascii "{not json")) empty_session =
    (Raise e,
     Session (World (trace (backend empty_session)
                     ++ [StError context e; StError file_context e])
                    (files (backend empty_session)))
             (timeline empty_session
              ++ [Logged (StError context e); Logged (StError file_context e)])).
Proof.
  apply (document_error_is_reported_twice sample_env ascii_decode sample_dumps
           (of_ascii "{not json") empty_session).
  intros items H; vm_compute in H; discriminate.
Defined.

(** X16. Uploaded bytes are decoded before anything else.  If they are
    not UTF-8, the decoding error is reported once and raised, and nothing
    is processed: no chat call, no progress, nothing on the page but the
    report.  If they decode to a text, everything is as for that text. *)
Theorem bytes_are_decoded_first
        (env : collaborators) (decode_utf8 : list Byte.byte -> result str)
        (py_str : json -> str) (b : list Byte.byte) (s : session) :
  process_json_file env decode_utf8 py_str (Bytes b) s =
  match decode_utf8 b with
  | Ok text => process_json_file env decode_utf8 py_str (Text text) s
  | Raise e =>
      (Raise e,
       Session (World (trace (backend s) ++ [StError file_context e])
                      (files (backend s)))
               (timeline s ++ [Logged (StError file_context e)]))
  end.
Proof.
  unfold process_json_file, utry, json_file_body.
  destruct (decode_utf8 b) as [text|e].
  - reflexivity.
  - erewrite ubind_raise by reflexivity.
    erewrite ubind_ok by apply run_st_error.
    reflexivity.
Qed.

(** ** The progress value *)

Lemma progress_events_in (events : list event) (i total : nat) :
  In (Progress i total) events -> In (i, total) (progress_events events).
Proof.
  induction events as [|e events IH]; simpl; [tauto|].
  intros [H|H].
  - subst e; left; reflexivity.
  - destruct e; simpl; auto.
Qed.

Lemma dict_positions_range (total : nat) (items : list json) :
  forall k i t,
    In (i, t) (dict_positions total k items) ->
    t = total /\ k <= i < k + length items.
Proof.
  induction items as [|x rest IH]; intros k i t; simpl; [tauto|].
  assert (Later : In (i, t) (dict_positions total (S k) rest) ->
                  t = total /\ k <= i < k + S (length rest)).
  { intros H; apply IH in H; destruct H as [-> H]; split; [reflexivity | lia]. }
  destruct x; simpl; try exact Later.
  intros [H|H]; [|exact (Later H)].
  inversion H; subst; split; [reflexivity | lia].
Qed.

(** X17. Every progress notification of a document carries a position
    between 1 and the number of elements, and that number as the total:
    the fraction [i / len(products)] passed to [st.progress] is never
    computed with a zero divisor and always lies in (0, 1], the range the
    progress bar accepts. *)
Theorem progress_fraction_in_range
        (env : collaborators) (text : str) (items : list json) (w : world) :
  json_loads env text = Decoded (JArray items) ->
  exists out events,
    process_json_document env text w =
    (Ok out, World (trace w ++ events) (files w)) /\
    forall i total,
      In (Progress i total) events ->
      total = length items /\ 1 <= i <= total.
Proof.
  intros D; rewrite document_run, D.
  destruct (enrich_run env (length items) items 1 w) as [out [events [E [_ [T _]]]]].
  exists out, events; split; [exact E|].
  intros i total H.
  apply progress_events_in in H.
  rewrite (loop_trace_progress _ _ _ _ T) in H.
  apply dict_positions_range in H; destruct H as [-> H].
  split; [reflexivity | lia].
Qed.

Lemma progress_fraction_in_range_witness :
  exists out events,
    process_json_document sample_env widget_document empty_world =
    (Ok out, World (trace empty_world ++ events) (files empty_world)) /\
    forall i total,
      In (Progress i total) events ->
      total = 2 /\ 1 <= i <= total.
Proof.
  apply (progress_fraction_in_range sample_env widget_document widget_items
           empty_world).
  reflexivity.
Defined.
